(** * QTMplot: live plotting of QTM measurement files

    A shallow embedding of the three plotting windows of the QTM toolbox
    (the single-trace window, the dual-trace window and the heatmap
    window) and proofs about their file polling, their data refresh and
    the reshaping of a flat value column into an image.

    Conventions of the embedding:
    - a window is a record of the attributes its methods read and write;
      a method is a computation in a state-and-exception monad, so that
      the attributes assigned before a Python exception is raised keep
      their new values;
    - the samples of a column and the modification stamps are Python
      floats; they are embedded as exact rationals ([Q]); NaN and rounding
      are outside the embedding;
    - the plotting library is a collaborator: every call made to it is
      appended to the [calls] attribute of the window, in program order,
      and is taken to succeed;
    - [parse_data] (module qtmimport), the directory tree below [Data] and
      [os.path.abspath] form the [world] a method runs in;
    - of the driver of the Anritsu MS2090A spectrum analyzer the write
      methods are embedded, over the texts handed to the socket. *)

From Stdlib Require Import List ZArith QArith Qminmax String Ascii Bool Lia.
From Stdlib Require Import DecimalString.
Import ListNotations.
Close Scope Q_scope.
Open Scope string_scope.
Open Scope list_scope.
Open Scope Z_scope.

Set Implicit Arguments.

(* ================================================================= *)
(** ** Python exceptions and the state-and-exception monad            *)
(* ================================================================= *)

Inductive exn : Type :=
| IndexError
| ValueError
| OverflowError
| AttributeError
| OSError.

Inductive outcome (A : Type) : Type :=
| Ret (a : A)
| Raise (e : exn).
Arguments Ret {A} a.
Arguments Raise {A} e.

(** A method of a window of type [S] returning an [A]. *)
Definition M (S A : Type) : Type := S -> outcome A * S.

Definition ret {S A} (a : A) : M S A := fun s => (Ret a, s).

Definition raise {S A} (e : exn) : M S A := fun s => (Raise e, s).

Definition bind {S A B} (m : M S A) (k : A -> M S B) : M S B :=
  fun s =>
    match m s with
    | (Ret a, s') => k a s'
    | (Raise e, s') => (Raise e, s')
    end.

Definition get {S} : M S S := fun s => (Ret s, s).

Definition gets {S A} (f : S -> A) : M S A := fun s => (Ret (f s), s).

Definition modify {S} (f : S -> S) : M S unit := fun s => (Ret tt, f s).

Definition lift {S A} (o : outcome A) : M S A := fun s => (o, s).

Declare Scope py_scope.
Delimit Scope py_scope with py.
Notation "x <- m ;; k" := (bind m (fun x => k))
  (at level 61, m at next level, right associativity) : py_scope.
Notation "m ;; k" := (bind m (fun _ => k))
  (at level 61, right associativity) : py_scope.
Open Scope py_scope.

Definition when {S} (b : bool) (m : M S unit) : M S unit :=
  if b then m else ret tt.

(* ================================================================= *)
(** ** Python sequences                                               *)
(* ================================================================= *)

Definition len {A} (l : list A) : Z := Z.of_nat (List.length l).

(** [l[i]]: a negative index counts from the end. *)
Definition py_index {A} (l : list A) (i : Z) : option A :=
  if (0 <=? i) && (i <? len l) then nth_error l (Z.to_nat i)
  else if (- len l <=? i) && (i <? 0) then nth_error l (Z.to_nat (len l + i))
  else None.

Definition getitem {S A} (l : list A) (i : Z) : M S A :=
  match py_index l i with
  | Some a => ret a
  | None => raise IndexError
  end.

(** [l[:n]] for [0 <= n]. *)
Definition slice_to {A} (l : list A) (n : Z) : list A := firstn (Z.to_nat n) l.

(** [pat in s] on strings: [pat] occurs somewhere in [s]. *)
Fixpoint str_in (pat s : string) : bool :=
  String.prefix pat s ||
  match s with
  | EmptyString => false
  | String _ s' => str_in pat s'
  end.

(* ================================================================= *)
(** ** Parsed files                                                   *)
(* ================================================================= *)

(** One item of the list returned by [parse_data]: [item.name] and
    [item.data]. *)
Record series : Type := mk_series { name : string; data : list Q }.

(** Modelled from the spec: parse_data of functions/qtmimport, which is
    not among the sources.  The first record of the file is the header of
    variable names, every further record holds one sample per variable;
    the result lists one series per header name, in header order, with the
    samples of its column in record order. *)
Definition parse_table (header : list string) (rows : list (list Q)) : list series :=
  map (fun '(i, nm) => mk_series nm (map (fun r => nth i r 0%Q) rows))
      (combine (seq 0 (List.length header)) header).

(* ================================================================= *)
(** ** The world of a window: directory tree, parser, path resolution *)
(* ================================================================= *)

(** An entry of a directory.  [mtime] is what [os.path.getmtime] returns
    for the entry, [None] when it raises; [listing] is what scanning a
    directory returns, [None] when the directory cannot be scanned. *)
#[warnings="-register-all"]
Inductive entry : Type :=
| File (fname : string) (mtime : option Q)
| Dir (dname : string) (mtime : option Q) (listing : option (list entry)).

Record world : Type := mk_world {
  (** the directory [Data] of the working directory: [None] when it is
      missing or cannot be read *)
  Data : option (list entry);
  (** [parse_data(filename)] *)
  parse_data : string -> outcome (list series);
  (** [os.path.abspath] *)
  abspath : string -> string
}.

Definition entry_name (e : entry) : string :=
  match e with File f _ => f | Dir d _ _ => d end.

Definition entry_mtime (e : entry) : option Q :=
  match e with File _ m => m | Dir _ m _ => m end.

(** [os.path.join(dp, f)] *)
Definition path_join (dp f : string) : string :=
  String.append dp (String.append "/" f).

(** The non-directory entries of a directory [top], joined to its path. *)
Definition files_of (top : string) (es : list entry) : list (string * option Q) :=
  flat_map (fun e => match e with
                     | File f m => [(path_join top f, m)]
                     | Dir _ _ _ => []
                     end) es.

(** [[os.path.join(dp, f) for dp, dn, fn in os.walk(top) for f in fn]]:
    [os.walk] visits a directory before its subdirectories, lists the
    non-directory entries of each directory it visits and skips, without
    raising, a directory that cannot be scanned.  [walk_entry dp e] is the
    part of that list which comes from the entry [e] of directory [dp]. *)
Fixpoint walk_entry (dp : string) (e : entry) : list (string * option Q) :=
  match e with
  | File _ _ => []
  | Dir d _ None => []
  | Dir d _ (Some es) =>
      files_of (path_join dp d) es ++ flat_map (walk_entry (path_join dp d)) es
  end.

Definition walk_listing (top : string) (es : list entry) : list (string * option Q) :=
  files_of top es ++ flat_map (walk_entry top) es.

(** The files below the directory [Data], each with its [getmtime]. *)
Definition os_walk_Data (w : world) : list (string * option Q) :=
  match Data w with
  | None => []
  | Some es => walk_listing "Data" es
  end.

(** [os.listdir('Data')]: raises when the directory is missing or cannot
    be read; lists files and directories alike. *)
Definition os_listdir_Data (w : world) : outcome (list entry) :=
  match Data w with
  | None => Raise OSError
  | Some es => Ret es
  end.

(** [stamps.append(os.path.getmtime(file))] for every file, in order. *)
Fixpoint getmtimes {S A} (files : list (A * option Q)) : M S (list Q) :=
  match files with
  | [] => ret []
  | (_, None) :: _ => raise OSError
  | (_, Some t) :: rest => ts <- getmtimes rest ;; ret (t :: ts)
  end.

Definition Qlt_bool (a b : Q) : bool := negb (Qle_bool b a).

(** The selection loop shared by the three windows:
<<
    max_stamp = 0
    latest_file = ''
    for f, s in zip(files, stamps):
        if '.csv' in f:
            if s > max_stamp:
                max_stamp = s
                latest_file = f
>> *)
Definition latest_step (acc : Q * string) (fs : string * Q) : Q * string :=
  let '(max_stamp, latest_file) := acc in
  let '(f, s) := fs in
  if str_in ".csv" f then
    if Qlt_bool max_stamp s then (s, f) else (max_stamp, latest_file)
  else (max_stamp, latest_file).

Definition latest_loop (files : list string) (stamps : list Q) : string :=
  snd (fold_left latest_step (combine files stamps) (0%Q, "")).

(* ================================================================= *)
(** ** Widgets                                                        *)
(* ================================================================= *)

(** A combo box: its items and its current index ([-1]: no current item). *)
Record QComboBox : Type := mk_combo { items : list string; currentIndex : Z }.

Definition combo_clear (_ : QComboBox) : QComboBox := mk_combo [] (-1).

Definition combo_addItems (l : list string) (c : QComboBox) : QComboBox :=
  mk_combo (items c ++ l)
           (match items c, l with
            | [], _ :: _ => 0
            | _, _ => currentIndex c
            end).

Definition combo_setCurrentIndex (i : Z) (c : QComboBox) : QComboBox :=
  mk_combo (items c)
           (if (0 <=? i) && (i <? len (items c)) then i else -1).

(** The two plot widgets of the heatmap window's stacked layout; the
    other windows only have [graphWidget]. *)
Inductive widget : Type := graphWidget | imageWidget.

Inductive line : Type := data_line | data_line2.

(** The calls made to the plotting library. *)
Inductive call : Type :=
| setCurrentWidget (w : widget)
| clear
| plot (l : line) (x y : list Q)
| setData (l : line) (x y : list Q)
| setImage (img : list (list Q))
| setRect (x y w h : Q)
| setLevels (low high : Q)
| setLabel (w : widget) (axis text : string)
| autoRange.

(* ================================================================= *)
(** ** The numpy operations of the image branch                       *)
(* ================================================================= *)

(** [a != a0], elementwise: the columns are numpy arrays. *)
Definition ne_mask (a : list Q) (a0 : Q) : list bool :=
  map (fun v => negb (Qeq_bool v a0)) a.

(** Index of the first [true] of a mask, if any. *)
Fixpoint first_true (m : list bool) : option nat :=
  match m with
  | [] => None
  | true :: _ => Some 0%nat
  | false :: r => option_map S (first_true r)
  end.

(** [np.argmax] of a boolean mask: the index of its first [True], and [0]
    when no element is [True].  (On an empty mask numpy raises; the code
    reads [fast[0]] first, so the mask it passes is never empty.) *)
Definition argmax (m : list bool) : Z :=
  match first_true m with
  | Some i => Z.of_nat i
  | None => 0
  end.

(** [int(n / length)] for a Python int [n] and a numpy integer [length]:
    the quotient is a float, infinite or NaN when [length] is zero, and
    [int] raises on both. *)
Definition int_truediv (n length : Z) : outcome Z :=
  if length =? 0 then
    if n =? 0 then Raise ValueError else Raise OverflowError
  else Ret (Z.quot n length).

(** The rows of [n] consecutive blocks of [w] elements. *)
Fixpoint blocks (n w : nat) (a : list Q) : list (list Q) :=
  match n with
  | O => []
  | S n' => firstn w a :: blocks n' w (skipn w a)
  end.

(** [np.reshape(a, (-1, length))] *)
Definition reshape (a : list Q) (length : Z) : outcome (list (list Q)) :=
  if length <=? 0 then Raise ValueError
  else if len a mod length =? 0
       then Ret (blocks (Z.to_nat (len a / length)) (Z.to_nat length) a)
       else Raise ValueError.

(** [g.T] for an array [g] with [ncols] columns. *)
Definition transpose (ncols : Z) (g : list (list Q)) : list (list Q) :=
  map (fun j => map (fun r => nth j r 0%Q) g) (seq 0 (Z.to_nat ncols)).

(** [np.min(g)] and [np.max(g)]: raise on an array without elements. *)
Definition np_min (g : list (list Q)) : outcome Q :=
  match List.concat g with
  | [] => Raise ValueError
  | v :: r => Ret (fold_left Qmin r v)
  end.

Definition np_max (g : list (list Q)) : outcome Q :=
  match List.concat g with
  | [] => Raise ValueError
  | v :: r => Ret (fold_left Qmax r v)
  end.

(** The sweep size and the reshaped array of one orientation:
<<
    length = np.argmax(fast != fast[0])
    cutoff = max(int(len(z) / length), 1)
    z = np.reshape(z[:length*cutoff], (-1, length))
>>
    [fast] is [self.x], or [self.y] when the slow axis is swapped. *)
Definition sweep_length (fast : list Q) : outcome Z :=
  match py_index fast 0 with
  | Some a0 => Ret (argmax (ne_mask fast a0))
  | None => Raise IndexError
  end.

Definition sweep_cutoff (z : list Q) (length : Z) : outcome Z :=
  match int_truediv (len z) length with
  | Ret q => Ret (Z.max q 1)
  | Raise e => Raise e
  end.

Definition sweep_reshape (z : list Q) (length : Z) : outcome (list (list Q)) :=
  match sweep_cutoff z length with
  | Ret cutoff => reshape (slice_to z (length * cutoff)) length
  | Raise e => Raise e
  end.

(** [self.z] is the flat value column first and the reshaped image next. *)
Inductive ndarray : Type :=
| Arr1 (a : list Q)
| Arr2 (g : list (list Q)).

(** A check box emits [stateChanged] with [2] when it becomes checked and
    with [0] when it becomes unchecked. *)
Definition check_state (b : bool) : Z := if b then 2 else 0.

(* ================================================================= *)
(** ** The heatmap window (QTMheatmap)                                *)
(* ================================================================= *)

Module Heatmap.

Record MainWindow : Type := mk {
  livePlot : bool;
  timer : option bool;
  file_path : string;
  graphs : widget;
  xbox : QComboBox;
  ybox : QComboBox;
  zbox : QComboBox;
  slowbox : bool;
  x : list Q;
  y : list Q;
  z : option ndarray;
  xindex : Z;
  yindex : Z;
  zindex : Z;
  filename : string;
  self_data : list series;
  var_names : option (list string);
  calls : list call
}.

Definition set_livePlot (v : bool) (s : MainWindow) : MainWindow :=
  mk v (timer s) (file_path s) (graphs s) (xbox s) (ybox s) (zbox s)
     (slowbox s) (x s) (y s) (z s) (xindex s) (yindex s) (zindex s)
     (filename s) (self_data s) (var_names s) (calls s).

Definition set_timer (v : option bool) (s : MainWindow) : MainWindow :=
  mk (livePlot s) v (file_path s) (graphs s) (xbox s) (ybox s) (zbox s)
     (slowbox s) (x s) (y s) (z s) (xindex s) (yindex s) (zindex s)
     (filename s) (self_data s) (var_names s) (calls s).

Definition set_file_path (v : string) (s : MainWindow) : MainWindow :=
  mk (livePlot s) (timer s) v (graphs s) (xbox s) (ybox s) (zbox s)
     (slowbox s) (x s) (y s) (z s) (xindex s) (yindex s) (zindex s)
     (filename s) (self_data s) (var_names s) (calls s).

Definition set_graphs (v : widget) (s : MainWindow) : MainWindow :=
  mk (livePlot s) (timer s) (file_path s) v (xbox s) (ybox s) (zbox s)
     (slowbox s) (x s) (y s) (z s) (xindex s) (yindex s) (zindex s)
     (filename s) (self_data s) (var_names s) (calls s).

Definition set_xbox (v : QComboBox) (s : MainWindow) : MainWindow :=
  mk (livePlot s) (timer s) (file_path s) (graphs s) v (ybox s) (zbox s)
     (slowbox s) (x s) (y s) (z s) (xindex s) (yindex s) (zindex s)
     (filename s) (self_data s) (var_names s) (calls s).

Definition set_ybox (v : QComboBox) (s : MainWindow) : MainWindow :=
  mk (livePlot s) (timer s) (file_path s) (graphs s) (xbox s) v (zbox s)
     (slowbox s) (x s) (y s) (z s) (xindex s) (yindex s) (zindex s)
     (filename s) (self_data s) (var_names s) (calls s).

Definition set_zbox (v : QComboBox) (s : MainWindow) : MainWindow :=
  mk (livePlot s) (timer s) (file_path s) (graphs s) (xbox s) (ybox s) v
     (slowbox s) (x s) (y s) (z s) (xindex s) (yindex s) (zindex s)
     (filename s) (self_data s) (var_names s) (calls s).

Definition set_slowbox (v : bool) (s : MainWindow) : MainWindow :=
  mk (livePlot s) (timer s) (file_path s) (graphs s) (xbox s) (ybox s)
     (zbox s) v (x s) (y s) (z s) (xindex s) (yindex s) (zindex s)
     (filename s) (self_data s) (var_names s) (calls s).

Definition set_x (v : list Q) (s : MainWindow) : MainWindow :=
  mk (livePlot s) (timer s) (file_path s) (graphs s) (xbox s) (ybox s)
     (zbox s) (slowbox s) v (y s) (z s) (xindex s) (yindex s) (zindex s)
     (filename s) (self_data s) (var_names s) (calls s).

Definition set_y (v : list Q) (s : MainWindow) : MainWindow :=
  mk (livePlot s) (timer s) (file_path s) (graphs s) (xbox s) (ybox s)
     (zbox s) (slowbox s) (x s) v (z s) (xindex s) (yindex s) (zindex s)
     (filename s) (self_data s) (var_names s) (calls s).

Definition set_z (v : option ndarray) (s : MainWindow) : MainWindow :=
  mk (livePlot s) (timer s) (file_path s) (graphs s) (xbox s) (ybox s)
     (zbox s) (slowbox s) (x s) (y s) v (xindex s) (yindex s) (zindex s)
     (filename s) (self_data s) (var_names s) (calls s).

Definition set_xindex (v : Z) (s : MainWindow) : MainWindow :=
  mk (livePlot s) (timer s) (file_path s) (graphs s) (xbox s) (ybox s)
     (zbox s) (slowbox s) (x s) (y s) (z s) v (yindex s) (zindex s)
     (filename s) (self_data s) (var_names s) (calls s).

Definition set_yindex (v : Z) (s : MainWindow) : MainWindow :=
  mk (livePlot s) (timer s) (file_path s) (graphs s) (xbox s) (ybox s)
     (zbox s) (slowbox s) (x s) (y s) (z s) (xindex s) v (zindex s)
     (filename s) (self_data s) (var_names s) (calls s).

Definition set_zindex (v : Z) (s : MainWindow) : MainWindow :=
  mk (livePlot s) (timer s) (file_path s) (graphs s) (xbox s) (ybox s)
     (zbox s) (slowbox s) (x s) (y s) (z s) (xindex s) (yindex s) v
     (filename s) (self_data s) (var_names s) (calls s).

Definition set_filename (v : string) (s : MainWindow) : MainWindow :=
  mk (livePlot s) (timer s) (file_path s) (graphs s) (xbox s) (ybox s)
     (zbox s) (slowbox s) (x s) (y s) (z s) (xindex s) (yindex s) (zindex s)
     v (self_data s) (var_names s) (calls s).

Definition set_self_data (v : list series) (s : MainWindow) : MainWindow :=
  mk (livePlot s) (timer s) (file_path s) (graphs s) (xbox s) (ybox s)
     (zbox s) (slowbox s) (x s) (y s) (z s) (xindex s) (yindex s) (zindex s)
     (filename s) v (var_names s) (calls s).

Definition set_var_names (v : option (list string)) (s : MainWindow) : MainWindow :=
  mk (livePlot s) (timer s) (file_path s) (graphs s) (xbox s) (ybox s)
     (zbox s) (slowbox s) (x s) (y s) (z s) (xindex s) (yindex s) (zindex s)
     (filename s) (self_data s) v (calls s).

Definition set_calls (v : list call) (s : MainWindow) : MainWindow :=
  mk (livePlot s) (timer s) (file_path s) (graphs s) (xbox s) (ybox s)
     (zbox s) (slowbox s) (x s) (y s) (z s) (xindex s) (yindex s) (zindex s)
     (filename s) (self_data s) (var_names s) v.

(** The window as [__init__] leaves it. *)
Definition init : MainWindow :=
  {| livePlot := false; timer := None; file_path := "";
     graphs := graphWidget;
     xbox := mk_combo [] (-1); ybox := mk_combo [] (-1);
     zbox := mk_combo [] (-1); slowbox := false;
     x := []; y := []; z := None;
     xindex := 0; yindex := 1; zindex := 2;
     filename := ""; self_data := []; var_names := None;
     calls := [plot data_line [] []] |}.

Definition emit (c : call) : M MainWindow unit :=
  modify (fun s => set_calls (calls s ++ [c]) s).

(** [self.graphs.setCurrentWidget(w)] *)
Definition graphs_setCurrentWidget (w : widget) : M MainWindow unit :=
  modify (set_graphs w) ;; emit (setCurrentWidget w).

(** Reading [self.var_names], which [__init__] does not create. *)
Definition read_var_names : M MainWindow (list string) :=
  s <- get ;;
  match var_names s with
  | Some l => ret l
  | None => raise AttributeError
  end.

Definition on_xbox (f : QComboBox -> QComboBox) : M MainWindow unit :=
  modify (fun s => set_xbox (f (xbox s)) s).
Definition on_ybox (f : QComboBox -> QComboBox) : M MainWindow unit :=
  modify (fun s => set_ybox (f (ybox s)) s).
Definition on_zbox (f : QComboBox -> QComboBox) : M MainWindow unit :=
  modify (fun s => set_zbox (f (zbox s)) s).

(** [self.data[i].data] *)
Definition column (i : Z) : M MainWindow (list Q) :=
  d <- gets self_data ;; item <- getitem d i ;; ret (data item).

(** [self.var_names[i]] *)
Definition var_name (i : Z) : M MainWindow string :=
  l <- read_var_names ;; getitem l i.

Section Methods.

Variable w : world.

(** The block run by [updateData] when [newFile == True]. *)
Definition rebuild_selectors (xindex yindex : Z) : M MainWindow unit :=
  d <- gets self_data ;;
  modify (set_var_names (Some (map name d))) ;;
  on_xbox combo_clear ;;
  on_ybox combo_clear ;;
  on_zbox combo_clear ;;
  l <- read_var_names ;; on_xbox (combo_addItems l) ;;
  l <- read_var_names ;; on_ybox (combo_addItems l) ;;
  l <- read_var_names ;; modify (set_var_names (Some (l ++ ["<none>"]))) ;;
  l <- read_var_names ;; on_zbox (combo_addItems l) ;;
  on_xbox (combo_setCurrentIndex xindex) ;;
  on_ybox (combo_setCurrentIndex yindex) ;;
  l <- read_var_names ;; modify (set_zindex (len l - 1)) ;;
  zi <- gets zindex ;; on_zbox (combo_setCurrentIndex zi).

(** The branch taken when the x column is empty. *)
Definition show_empty : M MainWindow unit :=
  graphs_setCurrentWidget graphWidget ;;
  modify (set_x []) ;;
  modify (set_y []) ;;
  emit clear ;;
  xs <- gets x ;; ys <- gets y ;; emit (plot data_line xs ys).

(** The branch commented "Show line plot". *)
Definition show_line (xindex yindex : Z) : M MainWindow unit :=
  graphs_setCurrentWidget graphWidget ;;
  l <- read_var_names ;; modify (set_zindex (len l - 1)) ;;
  zi <- gets zindex ;; on_zbox (combo_setCurrentIndex zi) ;;
  cx <- column xindex ;; modify (set_x cx) ;;
  cy <- column yindex ;; modify (set_y cy) ;;
  xs <- gets x ;; ys <- gets y ;; emit (setData data_line xs ys).

(** The branch commented "Show image plot". *)
Definition show_image (xindex yindex zindex : Z) : M MainWindow unit :=
  graphs_setCurrentWidget imageWidget ;;
  cx <- column xindex ;; modify (set_x cx) ;;
  cy <- column yindex ;; modify (set_y cy) ;;
  cz <- column zindex ;; modify (set_z (Some (Arr1 cz))) ;;
  xs <- gets x ;; ys <- gets y ;;
  swapped <- gets slowbox ;;
  g <- (if negb swapped then
          length <- lift (sweep_length xs) ;;
          g <- lift (sweep_reshape cz length) ;;
          modify (set_z (Some (Arr2 g))) ;;
          emit (setImage g) ;;
          x0 <- getitem xs 0 ;; xl <- getitem xs length ;;
          y0 <- getitem ys 0 ;; y1 <- getitem ys 1 ;;
          xe <- getitem xs (-1) ;; ye <- getitem ys (length - 1) ;;
          emit (setRect (x0 - (1 # 2) * (xl - x0)) (y0 - (1 # 2) * (y1 - y0))
                        (xe - x0 + (xl - x0)) (ye - y0 + (y1 - y0)))%Q ;;
          ret g
        else
          length <- lift (sweep_length ys) ;;
          g <- lift (sweep_reshape cz length) ;;
          modify (set_z (Some (Arr2 (transpose length g)))) ;;
          emit (setImage (transpose length g)) ;;
          x0 <- getitem xs 0 ;; x1 <- getitem xs 1 ;;
          y0 <- getitem ys 0 ;; yl <- getitem ys length ;;
          xe <- getitem xs (length - 1) ;; ye <- getitem ys (-1) ;;
          emit (setRect (x0 - (1 # 2) * (x1 - x0)) (y0 - (1 # 2) * (yl - y0))
                        (xe - x0 + (x1 - x0)) (ye - y0 + (yl - y0)))%Q ;;
          ret (transpose length g)) ;;
  low <- lift (np_min g) ;; high <- lift (np_max g) ;;
  emit (setLevels low high).

Definition updateData (xindex yindex zindex : Z) (newFile : bool)
  : M MainWindow unit :=
  fn <- gets filename ;;
  d <- lift (parse_data w fn) ;;
  modify (set_self_data d) ;;
  when newFile (rebuild_selectors xindex yindex) ;;
  cx <- column xindex ;;
  (if len cx =? 0 then show_empty
   else
     line_plot <- (if zindex =? -1 then ret true
                   else l <- read_var_names ;; ret (zindex =? len l - 1)) ;;
     if line_plot : bool then show_line xindex yindex
     else show_image xindex yindex zindex) ;;
  nx <- var_name xindex ;; emit (setLabel graphWidget "bottom" nx) ;;
  ny <- var_name yindex ;; emit (setLabel graphWidget "left" ny) ;;
  nx <- var_name xindex ;; emit (setLabel imageWidget "bottom" nx) ;;
  ny <- var_name yindex ;; emit (setLabel imageWidget "left" ny).

Definition xboxindex (i : Z) : M MainWindow unit :=
  modify (set_xindex i) ;;
  xi <- gets xindex ;; yi <- gets yindex ;;
  updateData xi yi (-1) false ;;
  emit autoRange.

Definition yboxindex (i : Z) : M MainWindow unit :=
  modify (set_yindex i) ;;
  xi <- gets xindex ;; yi <- gets yindex ;;
  updateData xi yi (-1) false ;;
  emit autoRange.

Definition zboxindex (i : Z) : M MainWindow unit :=
  modify (set_zindex i) ;;
  zi <- gets zindex ;; l <- read_var_names ;;
  xi <- gets xindex ;; yi <- gets yindex ;;
  if zi =? len l - 1 then updateData xi yi (-1) false
  else updateData xi yi zi false.

(** The most recently modified file of the watched folder, [''] when
    there is none: the first half of [livePlotting]. *)
Definition latest_file : M MainWindow string :=
  let files := os_walk_Data w in
  stamps <- getmtimes files ;;
  ret (latest_loop (map fst files) stamps).

Definition livePlotting : M MainWindow unit :=
  latest <- latest_file ;;
  when (0 <? Z.of_nat (String.length latest)) (
    fn <- gets filename ;;
    (if String.eqb (abspath w latest) fn then
       xi <- gets xindex ;; yi <- gets yindex ;; zi <- gets zindex ;;
       updateData xi yi zi false
     else
       modify (set_filename (abspath w latest)) ;;
       xi <- gets xindex ;; yi <- gets yindex ;;
       updateData xi yi (-1) true) ;;
    fn <- gets filename ;; modify (set_file_path fn)).

Definition livePlotToggle (s : Z) : M MainWindow unit :=
  when (s =? 2) (modify (set_timer (Some true))) ;;
  when (s =? 0) (
    t <- gets timer ;;
    match t with
    | Some _ => modify (set_timer (Some false))
    | None => raise AttributeError
    end).

(** [self.livePlot.setChecked(b)]: the slot runs when the state changes. *)
Definition livePlot_setChecked (b : bool) : M MainWindow unit :=
  cur <- gets livePlot ;;
  when (negb (Bool.eqb cur b)) (
    modify (set_livePlot b) ;; livePlotToggle (check_state b)).

Definition changeLivePlot : M MainWindow unit :=
  cur <- gets livePlot ;;
  if cur then livePlot_setChecked false else livePlot_setChecked true.

(** [fileName] is the answer of the file dialog, [''] when cancelled. *)
Definition openFileNameDialog (fileName : string) : M MainWindow unit :=
  livePlot_setChecked false ;;
  when (negb (String.eqb fileName "")) (
    modify (set_filename fileName) ;;
    xi <- gets xindex ;; yi <- gets yindex ;;
    updateData xi yi (-1) true ;;
    fn <- gets filename ;; modify (set_file_path fn)).

End Methods.

End Heatmap.

(* ================================================================= *)
(** ** The dual-trace window (QTMplot, dual version)                  *)
(* ================================================================= *)

Module Dual.

Record MainWindow : Type := mk {
  livePlot : bool;
  timer : option bool;
  file_path : string;
  xbox : QComboBox;
  ybox : QComboBox;
  ybox2 : QComboBox;
  x : list Q;
  y : list Q;
  y2 : list Q;
  xindex : Z;
  yindex : Z;
  yindex2 : Z;
  filename : string;
  self_data : list series;
  var_names : option (list string);
  calls : list call
}.

Definition set_livePlot (v : bool) (s : MainWindow) : MainWindow :=
  mk v (timer s) (file_path s) (xbox s) (ybox s) (ybox2 s) (x s) (y s)
     (y2 s) (xindex s) (yindex s) (yindex2 s) (filename s) (self_data s)
     (var_names s) (calls s).

Definition set_timer (v : option bool) (s : MainWindow) : MainWindow :=
  mk (livePlot s) v (file_path s) (xbox s) (ybox s) (ybox2 s) (x s) (y s)
     (y2 s) (xindex s) (yindex s) (yindex2 s) (filename s) (self_data s)
     (var_names s) (calls s).

Definition set_file_path (v : string) (s : MainWindow) : MainWindow :=
  mk (livePlot s) (timer s) v (xbox s) (ybox s) (ybox2 s) (x s) (y s) (y2 s)
     (xindex s) (yindex s) (yindex2 s) (filename s) (self_data s)
     (var_names s) (calls s).

Definition set_xbox (v : QComboBox) (s : MainWindow) : MainWindow :=
  mk (livePlot s) (timer s) (file_path s) v (ybox s) (ybox2 s) (x s) (y s)
     (y2 s) (xindex s) (yindex s) (yindex2 s) (filename s) (self_data s)
     (var_names s) (calls s).

Definition set_ybox (v : QComboBox) (s : MainWindow) : MainWindow :=
  mk (livePlot s) (timer s) (file_path s) (xbox s) v (ybox2 s) (x s) (y s)
     (y2 s) (xindex s) (yindex s) (yindex2 s) (filename s) (self_data s)
     (var_names s) (calls s).

Definition set_ybox2 (v : QComboBox) (s : MainWindow) : MainWindow :=
  mk (livePlot s) (timer s) (file_path s) (xbox s) (ybox s) v (x s) (y s)
     (y2 s) (xindex s) (yindex s) (yindex2 s) (filename s) (self_data s)
     (var_names s) (calls s).

Definition set_x (v : list Q) (s : MainWindow) : MainWindow :=
  mk (livePlot s) (timer s) (file_path s) (xbox s) (ybox s) (ybox2 s) v
     (y s) (y2 s) (xindex s) (yindex s) (yindex2 s) (filename s)
     (self_data s) (var_names s) (calls s).

Definition set_y (v : list Q) (s : MainWindow) : MainWindow :=
  mk (livePlot s) (timer s) (file_path s) (xbox s) (ybox s) (ybox2 s) (x s)
     v (y2 s) (xindex s) (yindex s) (yindex2 s) (filename s) (self_data s)
     (var_names s) (calls s).

Definition set_y2 (v : list Q) (s : MainWindow) : MainWindow :=
  mk (livePlot s) (timer s) (file_path s) (xbox s) (ybox s) (ybox2 s) (x s)
     (y s) v (xindex s) (yindex s) (yindex2 s) (filename s) (self_data s)
     (var_names s) (calls s).

Definition set_xindex (v : Z) (s : MainWindow) : MainWindow :=
  mk (livePlot s) (timer s) (file_path s) (xbox s) (ybox s) (ybox2 s) (x s)
     (y s) (y2 s) v (yindex s) (yindex2 s) (filename s) (self_data s)
     (var_names s) (calls s).

Definition set_yindex (v : Z) (s : MainWindow) : MainWindow :=
  mk (livePlot s) (timer s) (file_path s) (xbox s) (ybox s) (ybox2 s) (x s)
     (y s) (y2 s) (xindex s) v (yindex2 s) (filename s) (self_data s)
     (var_names s) (calls s).

Definition set_yindex2 (v : Z) (s : MainWindow) : MainWindow :=
  mk (livePlot s) (timer s) (file_path s) (xbox s) (ybox s) (ybox2 s) (x s)
     (y s) (y2 s) (xindex s) (yindex s) v (filename s) (self_data s)
     (var_names s) (calls s).

Definition set_filename (v : string) (s : MainWindow) : MainWindow :=
  mk (livePlot s) (timer s) (file_path s) (xbox s) (ybox s) (ybox2 s) (x s)
     (y s) (y2 s) (xindex s) (yindex s) (yindex2 s) v (self_data s)
     (var_names s) (calls s).

Definition set_self_data (v : list series) (s : MainWindow) : MainWindow :=
  mk (livePlot s) (timer s) (file_path s) (xbox s) (ybox s) (ybox2 s) (x s)
     (y s) (y2 s) (xindex s) (yindex s) (yindex2 s) (filename s) v
     (var_names s) (calls s).

Definition set_var_names (v : option (list string)) (s : MainWindow) : MainWindow :=
  mk (livePlot s) (timer s) (file_path s) (xbox s) (ybox s) (ybox2 s) (x s)
     (y s) (y2 s) (xindex s) (yindex s) (yindex2 s) (filename s)
     (self_data s) v (calls s).

Definition set_calls (v : list call) (s : MainWindow) : MainWindow :=
  mk (livePlot s) (timer s) (file_path s) (xbox s) (ybox s) (ybox2 s) (x s)
     (y s) (y2 s) (xindex s) (yindex s) (yindex2 s) (filename s)
     (self_data s) (var_names s) v.

(** The window as [__init__] leaves it. *)
Definition init : MainWindow :=
  {| livePlot := false; timer := None; file_path := "";
     xbox := mk_combo [] (-1); ybox := mk_combo [] (-1);
     ybox2 := mk_combo [] (-1);
     x := []; y := []; y2 := [];
     xindex := 0; yindex := 1; yindex2 := 2;
     filename := ""; self_data := []; var_names := None;
     calls := [plot data_line [] []; plot data_line2 [] []] |}.

Definition emit (c : call) : M MainWindow unit :=
  modify (fun s => set_calls (calls s ++ [c]) s).

Definition read_var_names : M MainWindow (list string) :=
  s <- get ;;
  match var_names s with
  | Some l => ret l
  | None => raise AttributeError
  end.

Definition on_xbox (f : QComboBox -> QComboBox) : M MainWindow unit :=
  modify (fun s => set_xbox (f (xbox s)) s).
Definition on_ybox (f : QComboBox -> QComboBox) : M MainWindow unit :=
  modify (fun s => set_ybox (f (ybox s)) s).
Definition on_ybox2 (f : QComboBox -> QComboBox) : M MainWindow unit :=
  modify (fun s => set_ybox2 (f (ybox2 s)) s).

Definition column (i : Z) : M MainWindow (list Q) :=
  d <- gets self_data ;; item <- getitem d i ;; ret (data item).

Definition var_name (i : Z) : M MainWindow string :=
  l <- read_var_names ;; getitem l i.

Section Methods.

Variable w : world.

Definition rebuild_selectors (xindex yindex yindex2 : Z) : M MainWindow unit :=
  d <- gets self_data ;;
  modify (set_var_names (Some (map name d))) ;;
  on_xbox combo_clear ;;
  on_ybox combo_clear ;;
  on_ybox2 combo_clear ;;
  l <- read_var_names ;; on_xbox (combo_addItems l) ;;
  l <- read_var_names ;; on_ybox (combo_addItems l) ;;
  l <- read_var_names ;; on_ybox2 (combo_addItems l) ;;
  on_xbox (combo_setCurrentIndex xindex) ;;
  on_ybox (combo_setCurrentIndex yindex) ;;
  on_ybox2 (combo_setCurrentIndex yindex2).

Definition show_empty : M MainWindow unit :=
  modify (set_x []) ;;
  modify (set_y []) ;;
  modify (set_y2 []) ;;
  emit clear ;;
  xs <- gets x ;; ys <- gets y ;; emit (plot data_line xs ys) ;;
  xs <- gets x ;; ys2 <- gets y2 ;; emit (plot data_line2 xs ys2).

Definition show_lines (xindex yindex yindex2 : Z) : M MainWindow unit :=
  cx <- column xindex ;; modify (set_x cx) ;;
  cy <- column yindex ;; modify (set_y cy) ;;
  cy2 <- column yindex2 ;; modify (set_y2 cy2) ;;
  xs <- gets x ;; ys <- gets y ;; emit (setData data_line xs ys) ;;
  xs <- gets x ;; ys2 <- gets y2 ;; emit (setData data_line2 xs ys2).

Definition updateData (xindex yindex yindex2 : Z) (newFile : bool)
  : M MainWindow unit :=
  fn <- gets filename ;;
  d <- lift (parse_data w fn) ;;
  modify (set_self_data d) ;;
  when newFile (rebuild_selectors xindex yindex yindex2) ;;
  cx <- column xindex ;;
  (if len cx =? 0 then show_empty
   else show_lines xindex yindex yindex2) ;;
  nx <- var_name xindex ;; emit (setLabel graphWidget "bottom" nx) ;;
  ny <- var_name yindex ;; ny2 <- var_name yindex2 ;;
  emit (setLabel graphWidget "left"
          (String.append "1: " (String.append ny (String.append ", 2: " ny2)))).

Definition xboxindex (i : Z) : M MainWindow unit :=
  modify (set_xindex i) ;;
  xi <- gets xindex ;; yi <- gets yindex ;; yi2 <- gets yindex2 ;;
  updateData xi yi yi2 false ;;
  emit autoRange.

Definition yboxindex (i : Z) : M MainWindow unit :=
  modify (set_yindex i) ;;
  xi <- gets xindex ;; yi <- gets yindex ;; yi2 <- gets yindex2 ;;
  updateData xi yi yi2 false ;;
  emit autoRange.

Definition ybox2index (i : Z) : M MainWindow unit :=
  modify (set_yindex2 i) ;;
  xi <- gets xindex ;; yi <- gets yindex ;; yi2 <- gets yindex2 ;;
  updateData xi yi yi2 false ;;
  emit autoRange.

Definition latest_file : M MainWindow string :=
  let files := os_walk_Data w in
  stamps <- getmtimes files ;;
  ret (latest_loop (map fst files) stamps).

Definition livePlotting : M MainWindow unit :=
  latest <- latest_file ;;
  when (0 <? Z.of_nat (String.length latest)) (
    fn <- gets filename ;;
    (if String.eqb (abspath w latest) fn then
       xi <- gets xindex ;; yi <- gets yindex ;; yi2 <- gets yindex2 ;;
       updateData xi yi yi2 false
     else
       modify (set_filename (abspath w latest)) ;;
       xi <- gets xindex ;; yi <- gets yindex ;; yi2 <- gets yindex2 ;;
       updateData xi yi yi2 true) ;;
    fn <- gets filename ;; modify (set_file_path fn)).

Definition livePlotToggle (s : Z) : M MainWindow unit :=
  when (s =? 2) (modify (set_timer (Some true))) ;;
  when (s =? 0) (
    t <- gets timer ;;
    match t with
    | Some _ => modify (set_timer (Some false))
    | None => raise AttributeError
    end).

Definition livePlot_setChecked (b : bool) : M MainWindow unit :=
  cur <- gets livePlot ;;
  when (negb (Bool.eqb cur b)) (
    modify (set_livePlot b) ;; livePlotToggle (check_state b)).

Definition changeLivePlot : M MainWindow unit :=
  cur <- gets livePlot ;;
  if cur then livePlot_setChecked false else livePlot_setChecked true.

Definition openFileNameDialog (fileName : string) : M MainWindow unit :=
  livePlot_setChecked false ;;
  when (negb (String.eqb fileName "")) (
    modify (set_filename fileName) ;;
    xi <- gets xindex ;; yi <- gets yindex ;; yi2 <- gets yindex2 ;;
    updateData xi yi yi2 true ;;
    fn <- gets filename ;; modify (set_file_path fn)).

End Methods.

End Dual.

(* ================================================================= *)
(** ** The single-trace window (QTMplot)                              *)
(* ================================================================= *)

Module Single.

Record MainWindow : Type := mk {
  livePlot : bool;
  timer : option bool;
  file_path : string;
  xbox : QComboBox;
  ybox : QComboBox;
  x : list Q;
  y : list Q;
  xindex : Z;
  yindex : Z;
  filename : string;
  self_data : list series;
  var_names : option (list string);
  calls : list call
}.

Definition set_livePlot (v : bool) (s : MainWindow) : MainWindow :=
  mk v (timer s) (file_path s) (xbox s) (ybox s) (x s) (y s) (xindex s)
     (yindex s) (filename s) (self_data s) (var_names s) (calls s).

Definition set_timer (v : option bool) (s : MainWindow) : MainWindow :=
  mk (livePlot s) v (file_path s) (xbox s) (ybox s) (x s) (y s) (xindex s)
     (yindex s) (filename s) (self_data s) (var_names s) (calls s).

Definition set_file_path (v : string) (s : MainWindow) : MainWindow :=
  mk (livePlot s) (timer s) v (xbox s) (ybox s) (x s) (y s) (xindex s)
     (yindex s) (filename s) (self_data s) (var_names s) (calls s).

Definition set_xbox (v : QComboBox) (s : MainWindow) : MainWindow :=
  mk (livePlot s) (timer s) (file_path s) v (ybox s) (x s) (y s) (xindex s)
     (yindex s) (filename s) (self_data s) (var_names s) (calls s).

Definition set_ybox (v : QComboBox) (s : MainWindow) : MainWindow :=
  mk (livePlot s) (timer s) (file_path s) (xbox s) v (x s) (y s) (xindex s)
     (yindex s) (filename s) (self_data s) (var_names s) (calls s).

Definition set_x (v : list Q) (s : MainWindow) : MainWindow :=
  mk (livePlot s) (timer s) (file_path s) (xbox s) (ybox s) v (y s)
     (xindex s) (yindex s) (filename s) (self_data s) (var_names s)
     (calls s).

Definition set_y (v : list Q) (s : MainWindow) : MainWindow :=
  mk (livePlot s) (timer s) (file_path s) (xbox s) (ybox s) (x s) v
     (xindex s) (yindex s) (filename s) (self_data s) (var_names s)
     (calls s).

Definition set_xindex (v : Z) (s : MainWindow) : MainWindow :=
  mk (livePlot s) (timer s) (file_path s) (xbox s) (ybox s) (x s) (y s) v
     (yindex s) (filename s) (self_data s) (var_names s) (calls s).

Definition set_yindex (v : Z) (s : MainWindow) : MainWindow :=
  mk (livePlot s) (timer s) (file_path s) (xbox s) (ybox s) (x s) (y s)
     (xindex s) v (filename s) (self_data s) (var_names s) (calls s).

Definition set_filename (v : string) (s : MainWindow) : MainWindow :=
  mk (livePlot s) (timer s) (file_path s) (xbox s) (ybox s) (x s) (y s)
     (xindex s) (yindex s) v (self_data s) (var_names s) (calls s).

Definition set_self_data (v : list series) (s : MainWindow) : MainWindow :=
  mk (livePlot s) (timer s) (file_path s) (xbox s) (ybox s) (x s) (y s)
     (xindex s) (yindex s) (filename s) v (var_names s) (calls s).

Definition set_var_names (v : option (list string)) (s : MainWindow) : MainWindow :=
  mk (livePlot s) (timer s) (file_path s) (xbox s) (ybox s) (x s) (y s)
     (xindex s) (yindex s) (filename s) (self_data s) v (calls s).

Definition set_calls (v : list call) (s : MainWindow) : MainWindow :=
  mk (livePlot s) (timer s) (file_path s) (xbox s) (ybox s) (x s) (y s)
     (xindex s) (yindex s) (filename s) (self_data s) (var_names s) v.

(** The window as [__init__] leaves it. *)
Definition init : MainWindow :=
  {| livePlot := false; timer := None; file_path := "";
     xbox := mk_combo [] (-1); ybox := mk_combo [] (-1);
     x := []; y := [];
     xindex := 0; yindex := 1;
     filename := ""; self_data := []; var_names := None;
     calls := [plot data_line [] []] |}.

Definition emit (c : call) : M MainWindow unit :=
  modify (fun s => set_calls (calls s ++ [c]) s).

Definition read_var_names : M MainWindow (list string) :=
  s <- get ;;
  match var_names s with
  | Some l => ret l
  | None => raise AttributeError
  end.

Definition on_xbox (f : QComboBox -> QComboBox) : M MainWindow unit :=
  modify (fun s => set_xbox (f (xbox s)) s).
Definition on_ybox (f : QComboBox -> QComboBox) : M MainWindow unit :=
  modify (fun s => set_ybox (f (ybox s)) s).

Definition column (i : Z) : M MainWindow (list Q) :=
  d <- gets self_data ;; item <- getitem d i ;; ret (data item).

Definition var_name (i : Z) : M MainWindow string :=
  l <- read_var_names ;; getitem l i.

Section Methods.

Variable w : world.

Definition rebuild_selectors (xindex yindex : Z) : M MainWindow unit :=
  d <- gets self_data ;;
  modify (set_var_names (Some (map name d))) ;;
  on_xbox combo_clear ;;
  on_ybox combo_clear ;;
  l <- read_var_names ;; on_xbox (combo_addItems l) ;;
  l <- read_var_names ;; on_ybox (combo_addItems l) ;;
  on_xbox (combo_setCurrentIndex xindex) ;;
  on_ybox (combo_setCurrentIndex yindex).

Definition show_empty : M MainWindow unit :=
  modify (set_x []) ;;
  modify (set_y []) ;;
  emit clear ;;
  xs <- gets x ;; ys <- gets y ;; emit (plot data_line xs ys).

Definition show_line (xindex yindex : Z) : M MainWindow unit :=
  cx <- column xindex ;; modify (set_x cx) ;;
  cy <- column yindex ;; modify (set_y cy) ;;
  xs <- gets x ;; ys <- gets y ;; emit (setData data_line xs ys).

Definition updateData (xindex yindex : Z) (newFile : bool)
  : M MainWindow unit :=
  fn <- gets filename ;;
  d <- lift (parse_data w fn) ;;
  modify (set_self_data d) ;;
  when newFile (rebuild_selectors xindex yindex) ;;
  cx <- column xindex ;;
  (if len cx =? 0 then show_empty else show_line xindex yindex) ;;
  nx <- var_name xindex ;; emit (setLabel graphWidget "bottom" nx) ;;
  ny <- var_name yindex ;; emit (setLabel graphWidget "left" ny).

Definition xboxindex (i : Z) : M MainWindow unit :=
  modify (set_xindex i) ;;
  xi <- gets xindex ;; yi <- gets yindex ;;
  updateData xi yi false ;;
  emit autoRange.

Definition yboxindex (i : Z) : M MainWindow unit :=
  modify (set_yindex i) ;;
  xi <- gets xindex ;; yi <- gets yindex ;;
  updateData xi yi false ;;
  emit autoRange.

(** This window lists the folder itself, without its subfolders:
<<
    for file in os.listdir(folder):
        files.append(file)
        stamps.append(os.path.getmtime(folder + '/' + file))
>> *)
Definition latest_file : M MainWindow string :=
  es <- lift (os_listdir_Data w) ;;
  let files := map (fun e => (entry_name e, entry_mtime e)) es in
  stamps <- getmtimes files ;;
  ret (latest_loop (map fst files) stamps).

Definition livePlotting : M MainWindow unit :=
  latest <- latest_file ;;
  when (0 <? Z.of_nat (String.length latest)) (
    fn <- gets filename ;;
    (if String.eqb (abspath w (path_join "Data" latest)) fn then
       xi <- gets xindex ;; yi <- gets yindex ;;
       updateData xi yi false
     else
       modify (set_filename (abspath w (path_join "Data" latest))) ;;
       xi <- gets xindex ;; yi <- gets yindex ;;
       updateData xi yi true) ;;
    fn <- gets filename ;; modify (set_file_path fn)).

Definition livePlotToggle (s : Z) : M MainWindow unit :=
  when (s =? 2) (modify (set_timer (Some true))) ;;
  when (s =? 0) (
    t <- gets timer ;;
    match t with
    | Some _ => modify (set_timer (Some false))
    | None => raise AttributeError
    end).

Definition livePlot_setChecked (b : bool) : M MainWindow unit :=
  cur <- gets livePlot ;;
  when (negb (Bool.eqb cur b)) (
    modify (set_livePlot b) ;; livePlotToggle (check_state b)).

Definition changeLivePlot : M MainWindow unit :=
  cur <- gets livePlot ;;
  if cur then livePlot_setChecked false else livePlot_setChecked true.

Definition openFileNameDialog (fileName : string) : M MainWindow unit :=
  livePlot_setChecked false ;;
  when (negb (String.eqb fileName "")) (
    modify (set_filename fileName) ;;
    xi <- gets xindex ;; yi <- gets yindex ;;
    updateData xi yi true ;;
    fn <- gets filename ;; modify (set_file_path fn)).

End Methods.

End Single.

(* ================================================================= *)
(** ** Predicates used in the statements                              *)
(* ================================================================= *)

(** [keeps R m]: whatever [m] returns or raises, the window it leaves is
    related by [R] to the window it started from. *)
Definition keeps {S : Type} (R : S -> S -> Prop) {A} (m : M S A) : Prop :=
  forall s, R s (snd (m s)).

(** The calls that only the image branch makes. *)
Definition image_call (c : call) : bool :=
  match c with
  | setCurrentWidget imageWidget => true
  | setImage _ => true
  | setRect _ _ _ _ => true
  | setLevels _ _ => true
  | _ => false
  end.

(** [s.endswith(suffix)] *)
Definition str_endswith (suffix s : string) : bool :=
  let n := String.length s in
  let k := String.length suffix in
  (k <=? n)%nat && String.eqb (String.substring (n - k) k s) suffix.

(** All series of a parsed file have the same length. *)
Definition equal_lengths (d : list series) : Prop :=
  forall a b, In a d -> In b d -> len (data a) = len (data b).

(** [wp m Q s]: running [m] from the window [s] ends, with a result or
    with an exception, in an outcome and a window that satisfy [Q]. *)
Definition wp {S A} (m : M S A) (Q : outcome A -> S -> Prop) (s : S) : Prop :=
  match m s with (o, s') => Q o s' end.

(** The calls of [s'] are those of [s] followed by calls that the image
    branch does not make. *)
Definition extends_without_image (old new : list call) : Prop :=
  exists more, new = old ++ more /\ forallb (fun c => negb (image_call c)) more = true.

(** ** Example files and worlds *)

Definition samples (l : list Z) : list Q := map inject_Z l.

(** A world whose folder [Data] holds the given entries and in which
    every file parses to the table made of [header] and [rows]. *)
Definition world_of (entries : option (list entry))
    (header : list string) (rows : list (list Q)) : world :=
  mk_world entries (fun _ => Ret (parse_table header rows))
           (fun p => String.append "/home/qtm/" p).

(** A step of the heatmap window that made no call of the image branch
    and left [self.z] alone. *)
Definition no_image_step (s s' : Heatmap.MainWindow) : Prop :=
  extends_without_image (Heatmap.calls s) (Heatmap.calls s') /\
  Heatmap.z s' = Heatmap.z s.

(** A step that left the axis selectors of a window alone: the contents
    of the boxes, the chosen x and y indices, the variable names and the
    file name.  (The value box of the heatmap window is compared by its
    contents; its index is treated apart.) *)
Definition heatmap_selectors_kept (s s' : Heatmap.MainWindow) : Prop :=
  Heatmap.xbox s' = Heatmap.xbox s /\
  Heatmap.ybox s' = Heatmap.ybox s /\
  items (Heatmap.zbox s') = items (Heatmap.zbox s) /\
  Heatmap.xindex s' = Heatmap.xindex s /\
  Heatmap.yindex s' = Heatmap.yindex s /\
  Heatmap.var_names s' = Heatmap.var_names s /\
  Heatmap.filename s' = Heatmap.filename s.

Definition dual_selectors_kept (s s' : Dual.MainWindow) : Prop :=
  Dual.xbox s' = Dual.xbox s /\
  Dual.ybox s' = Dual.ybox s /\
  Dual.ybox2 s' = Dual.ybox2 s /\
  Dual.xindex s' = Dual.xindex s /\
  Dual.yindex s' = Dual.yindex s /\
  Dual.yindex2 s' = Dual.yindex2 s /\
  Dual.var_names s' = Dual.var_names s /\
  Dual.filename s' = Dual.filename s.

Definition heatmap_filename_kept (s s' : Heatmap.MainWindow) : Prop :=
  Heatmap.filename s' = Heatmap.filename s.

Definition dual_filename_kept (s s' : Dual.MainWindow) : Prop :=
  Dual.filename s' = Dual.filename s.

(** A file with one record: x = 5, y = 1, value = 7. *)
Definition single_point_world : world :=
  world_of (Some [File "point.csv" (Some 1%Q)])
           ["x"; "y"; "v"] [samples [5; 1; 7]].

(** The heatmap window after one live-plot tick in that world. *)
Definition single_point_loaded : Heatmap.MainWindow :=
  snd (Heatmap.livePlotting single_point_world Heatmap.init).

(** A file with ten records: three full sweeps of three points and the
    first point of a fourth sweep. *)
Definition ten_records_world : world :=
  world_of (Some [File "sweep.csv" (Some 1%Q)])
           ["x"; "y"; "v"]
           [samples [0; 0; 1]; samples [0; 1; 2]; samples [0; 2; 3];
            samples [1; 0; 4]; samples [1; 1; 5]; samples [1; 2; 6];
            samples [2; 0; 7]; samples [2; 1; 8]; samples [2; 2; 9];
            samples [3; 0; 10]].

Definition ten_records_loaded : Heatmap.MainWindow :=
  snd (Heatmap.livePlotting ten_records_world Heatmap.init).





(** A file with two variables only. *)
Definition two_column_world : world :=
  world_of (Some [File "narrow.csv" (Some 2%Q)])
           ["x"; "y"] [samples [0; 1]; samples [0; 3]].

(** The heatmap window showing the three-variable file of
    [ten_records_world], after the user chose the third variable as x
    axis. *)
Definition third_variable_chosen : Heatmap.MainWindow :=
  snd (Heatmap.xboxindex ten_records_world 2 ten_records_loaded).

(** A folder in which a backup copy is newer than the data file. *)
Definition backup_newer_world : world :=
  world_of (Some [File "a.csv" (Some 1%Q); File "b.csv.bak" (Some 2%Q)])
           ["x"; "y"; "v"] [samples [0; 1; 2]].

(** A folder with a file whose modification time cannot be read, as for
    a file removed between the listing and the call of [getmtime]. *)
Definition vanished_file_world : world :=
  world_of (Some [File "gone.csv" None]) ["x"; "y"; "v"] [].

(** What the selection loop has established after the files [seen]. *)
Definition latest_inv (seen : list (string * Q)) (acc : Q * string) : Prop :=
  (0 <= fst acc)%Q /\
  (forall f s, In (f, s) seen -> str_in ".csv" f = true -> (s <= fst acc)%Q) /\
  ((snd acc = "" /\ fst acc = 0%Q) \/
   (In (snd acc, fst acc) seen /\ str_in ".csv" (snd acc) = true /\
    (0 < fst acc)%Q)).

(* ================================================================= *)
(** ** Further predicates                                             *)
(* ================================================================= *)

(** The stamps of a list of files, when all of them can be read. *)
Fixpoint all_stamps {A} (files : list (A * option Q)) : option (list Q) :=
  match files with
  | [] => Some []
  | (_, None) :: _ => None
  | (_, Some t) :: rest => option_map (cons t) (all_stamps rest)
  end.

(** What the selection loop has established after the files [seen], with
    the place of the selected file among them. *)
Definition latest_first_inv (seen : list (string * Q)) (acc : Q * string)
  : Prop :=
  (snd acc = "" /\ fst acc = 0%Q /\
   forall f s, In (f, s) seen -> str_in ".csv" f = true -> (s <= 0)%Q) \/
  (exists before after,
     seen = before ++ (snd acc, fst acc) :: after /\
     str_in ".csv" (snd acc) = true /\ (0 < fst acc)%Q /\
     (forall f s, In (f, s) before -> str_in ".csv" f = true ->
                  (s < fst acc)%Q) /\
     (forall f s, In (f, s) after -> str_in ".csv" f = true ->
                  (s <= fst acc)%Q)).

Definition heatmap_file_path_kept (s s' : Heatmap.MainWindow) : Prop :=
  Heatmap.file_path s' = Heatmap.file_path s.

Definition dual_file_path_kept (s s' : Dual.MainWindow) : Prop :=
  Dual.file_path s' = Dual.file_path s.

(** The world [w] after the files of the folder were rewritten: the same
    folder listing and path resolution, any contents. *)
Definition same_folder (w : world) (parse : string -> outcome (list series))
  : world :=
  mk_world (Data w) parse (abspath w).

(** The check box and the timer agree: a checked box has a running timer,
    an unchecked box has none or a stopped one. *)
Definition heatmap_live_consistent (s : Heatmap.MainWindow) : Prop :=
  (Heatmap.livePlot s = true -> Heatmap.timer s = Some true) /\
  (Heatmap.livePlot s = false -> Heatmap.timer s <> Some true).

Definition dual_live_consistent (s : Dual.MainWindow) : Prop :=
  (Dual.livePlot s = true -> Dual.timer s = Some true) /\
  (Dual.livePlot s = false -> Dual.timer s <> Some true).

Definition heatmap_live_kept (s s' : Heatmap.MainWindow) : Prop :=
  Heatmap.livePlot s' = Heatmap.livePlot s /\
  Heatmap.timer s' = Heatmap.timer s.

Definition dual_live_kept (s s' : Dual.MainWindow) : Prop :=
  Dual.livePlot s' = Dual.livePlot s /\ Dual.timer s' = Dual.timer s.

(** What can happen to the dual-trace window: the signals its slots are
    connected to.  The timer fires only while it runs; a click on the
    check box and the shortcut Ctrl+L both flip the box, which runs
    [livePlotToggle] through [stateChanged]. *)
Inductive dual_event : Type :=
| TimerTimeout (w : world)
| XboxActivated (w : world) (i : Z)
| YboxActivated (w : world) (i : Z)
| Ybox2Activated (w : world) (i : Z)
| LivePlotFlipped
| FileDialogAnswered (w : world) (fileName : string).

Definition dual_handle (ev : dual_event) : M Dual.MainWindow unit :=
  match ev with
  | TimerTimeout w =>
      t <- gets Dual.timer ;;
      match t with
      | Some true => Dual.livePlotting w
      | _ => ret tt
      end
  | XboxActivated w i => Dual.xboxindex w i
  | YboxActivated w i => Dual.yboxindex w i
  | Ybox2Activated w i => Dual.ybox2index w i
  | LivePlotFlipped => Dual.changeLivePlot
  | FileDialogAnswered w f => Dual.openFileNameDialog w f
  end.

(** The window after a sequence of events, each handled whether or not
    the one before raised. *)
Fixpoint dual_run (evs : list dual_event) (s : Dual.MainWindow)
  : Dual.MainWindow :=
  match evs with
  | [] => s
  | ev :: rest => dual_run rest (snd (dual_handle ev s))
  end.

(** ** Further example worlds *)

(** The folder of a first sweep: sweep_001.csv with the variables V1, V2
    and V3 and three records. *)
Definition sweep_001_world : world :=
  world_of (Some [File "sweep_001.csv" (Some 100%Q)])
           ["V1"; "V2"; "V3"]
           [samples [0; 1; 2]; samples [0; 3; 4]; samples [1; 5; 6]].

(** A world in which no file can be parsed. *)
Definition failing_parse_world : world :=
  mk_world (Some [File "locked.csv" (Some 1%Q)])
           (fun _ => Raise OSError)
           (fun p => String.append "/home/qtm/" p).

(** A folder whose only data file carries the stamp 0. *)
Definition epoch_stamp_world : world :=
  world_of (Some [File "notes.txt" (Some 5%Q); File "old.csv" (Some 0%Q)])
           ["x"; "y"; "v"] [samples [0; 1; 2]].

(* ================================================================= *)
(** ** The Anritsu MS2090A spectrum analyzer: its write methods       *)
(* ================================================================= *)

Module AnritsuMS2090A.

(** The socket [self.s], as far as the write methods use it: the texts
    handed to [sendall], in order. *)
Record instrument : Type := mk { sent : list string }.

(** ['\r\n'] *)
Definition CRLF : string :=
  String (ascii_of_nat 13) (String (ascii_of_nat 10) EmptyString).

(** [str(val)] for an integer [val]. *)
Definition str (val : Z) : string := NilZero.string_of_int (Z.to_int val).

(** [self.s.sendall(cmd.encode())] *)
Definition sendall (cmd : string) : M instrument unit :=
  modify (fun s => mk (sent s ++ [cmd])).

Definition write (val : string) : M instrument unit :=
  let cmd := String.append val CRLF in
  sendall cmd.

Definition write_npoints (val : Z) : M instrument unit :=
  write (String.append "DISP:POIN " (str val)).




End AnritsuMS2090A.


(* ================================================================= *)
(** * Properties                                                      *)
(* ================================================================= *)

(** ** Frame reasoning for methods *)

Section Frames.

Variable S : Type.
Variable R : S -> S -> Prop.
Local Abbreviation keeps := (@keeps S R _).
Hypothesis R_refl : forall s, R s s.
Hypothesis R_trans : forall a b c, R a b -> R b c -> R a c.

Lemma keeps_ret A (a : A) : keeps (ret a).
Proof. intro s; apply R_refl. Qed.

Lemma keeps_raise A e : keeps (@raise S A e).
Proof. intro s; apply R_refl. Qed.

Lemma keeps_lift A (o : outcome A) : keeps (lift o).
Proof. intro s; apply R_refl. Qed.

Lemma keeps_get : keeps (@get S).
Proof. intro s; apply R_refl. Qed.

Lemma keeps_gets A (f : S -> A) : keeps (gets f).
Proof. intro s; apply R_refl. Qed.

Lemma keeps_getitem A (l : list A) i : keeps (@getitem S A l i).
Proof. intro s; unfold getitem; destruct (py_index l i); apply R_refl. Qed.

Lemma keeps_modify (f : S -> S) : (forall s, R s (f s)) -> keeps (modify f).
Proof. intros H s; apply H. Qed.

Lemma keeps_bind A B (m : M S A) (k : A -> M S B) :
  keeps m -> (forall a, keeps (k a)) -> keeps (bind m k).
Proof.
  intros Hm Hk s. unfold bind.
  specialize (Hm s). destruct (m s) as [[a | e] s']; simpl in *.
  - eapply R_trans; [exact Hm | apply Hk].
  - exact Hm.
Qed.

Lemma keeps_when b (m : M S unit) : keeps m -> keeps (when b m).
Proof. intros Hm; destruct b; simpl; [exact Hm | apply keeps_ret]. Qed.

Lemma keeps_if A (b : bool) (m1 m2 : M S A) :
  keeps m1 -> keeps m2 -> keeps (if b then m1 else m2).
Proof. destruct b; auto. Qed.

End Frames.

(** ** Sequences *)

Lemma len_nonneg A (l : list A) : 0 <= len l.
Proof. unfold len; lia. Qed.

Lemma len_nil_iff A (l : list A) : len l = 0 <-> l = [].
Proof. unfold len; destruct l; simpl; split; intros; try easy; lia. Qed.

Lemma len_app A (l1 l2 : list A) : len (l1 ++ l2) = len l1 + len l2.
Proof. unfold len; rewrite length_app; lia. Qed.

Lemma len_map A B (f : A -> B) l : len (map f l) = len l.
Proof. unfold len; now rewrite length_map. Qed.

Lemma py_index_nonneg A (l : list A) i :
  0 <= i -> py_index l i = nth_error l (Z.to_nat i).
Proof.
  intros Hi. unfold py_index.
  destruct (i <? len l) eqn:E.
  - replace (0 <=? i) with true by (symmetry; apply Z.leb_le; lia). reflexivity.
  - rewrite andb_false_r.
    replace (i <? 0) with false by (symmetry; apply Z.ltb_ge; lia).
    rewrite andb_false_r. symmetry. apply nth_error_None.
    apply Z.ltb_ge in E. unfold len in E. lia.
Qed.

Lemma py_index_map A B (f : A -> B) l i :
  py_index (map f l) i = option_map f (py_index l i).
Proof.
  unfold py_index. rewrite len_map.
  destruct ((0 <=? i) && (i <? len l)); [ apply nth_error_map | ].
  destruct ((- len l <=? i) && (i <? 0)); [ apply nth_error_map | reflexivity ].
Qed.

Lemma py_index_app_l A (l1 l2 : list A) i a :
  0 <= i -> py_index l1 i = Some a -> py_index (l1 ++ l2) i = Some a.
Proof.
  intros Hi H. rewrite py_index_nonneg in * by lia.
  rewrite nth_error_app1; [ exact H | ].
  apply nth_error_Some. congruence.
Qed.

(** ** Sweep geometry *)

Lemma first_true_Some m i :
  first_true m = Some i ->
  nth_error m i = Some true /\
  forall j, (j < i)%nat -> nth_error m j = Some false.
Proof.
  revert i. induction m as [ | b m IH ]; intros i H; simpl in H.
  - discriminate.
  - destruct b.
    + injection H as <-. split; [ reflexivity | intros j Hj; lia ].
    + destruct (first_true m) as [ k | ]; [ | discriminate ].
      injection H as <-. destruct (IH k eq_refl) as [H1 H2].
      split; [ exact H1 | ].
      intros [ | j ] Hj; [ reflexivity | apply H2; lia ].
Qed.

Lemma first_true_None m :
  first_true m = None -> forall b, In b m -> b = false.
Proof.
  induction m as [ | b m IH ]; intros H c Hc; simpl in *.
  - contradiction.
  - destruct b; [ discriminate | ].
    destruct Hc as [ <- | Hc ]; [ reflexivity | ].
    apply IH; [ | exact Hc ].
    destruct (first_true m); [ discriminate | reflexivity ].
Qed.

Lemma first_true_all_false m :
  (forall b, In b m -> b = false) -> first_true m = None.
Proof.
  induction m as [ | b m IH ]; intros H; simpl.
  - reflexivity.
  - rewrite (H b) by (left; reflexivity).
    rewrite IH; [ reflexivity | ].
    intros c Hc. apply H. right. exact Hc.
Qed.

(** A positive sweep length is the first index whose sample differs from
    the first sample. *)
Lemma sweep_length_first_change fast L :
  sweep_length fast = Ret L -> 0 < L ->
  exists a0 v,
    nth_error fast 0 = Some a0 /\
    nth_error fast (Z.to_nat L) = Some v /\ ~ (v == a0)%Q /\
    forall j u, (j < Z.to_nat L)%nat -> nth_error fast j = Some u -> (u == a0)%Q.
Proof.
  unfold sweep_length. rewrite py_index_nonneg by lia. simpl Z.to_nat.
  destruct (nth_error fast 0) as [ a0 | ] eqn:E0; [ | discriminate ].
  unfold argmax. destruct (first_true (ne_mask fast a0)) as [ i | ] eqn:E;
    intros H HL; injection H as <-; [ | lia ].
  apply first_true_Some in E as [E1 E2].
  rewrite Nat2Z.id. unfold ne_mask in *.
  rewrite nth_error_map in E1.
  destruct (nth_error fast i) as [ v | ] eqn:Ev; [ | discriminate ].
  exists a0, v. repeat split; auto.
  - simpl in E1. injection E1 as E1. intros Heq.
    apply Qeq_eq_bool in Heq. rewrite Heq in E1. discriminate.
  - intros j u Hj Hu. specialize (E2 j Hj).
    rewrite nth_error_map, Hu in E2. simpl in E2. injection E2 as E2.
    apply Qeq_bool_eq. destruct (Qeq_bool u a0); [ reflexivity | discriminate ].
Qed.

(** A series that never leaves its first value has sweep length zero. *)
Lemma sweep_length_constant a0 rest :
  (forall v, In v rest -> (v == a0)%Q) ->
  sweep_length (a0 :: rest) = Ret 0.
Proof.
  intros H. unfold sweep_length, argmax.
  rewrite py_index_nonneg by lia. simpl nth_error. cbv beta iota.
  rewrite first_true_all_false; [ reflexivity | ].
  intros b Hb. unfold ne_mask in Hb. apply in_map_iff in Hb as (v & <- & Hv).
  destruct Hv as [ <- | Hv ].
  - now rewrite Qeq_bool_refl.
  - rewrite (Qeq_eq_bool _ _ (H v Hv)). reflexivity.
Qed.

(** With sweep length zero the row count cannot be computed. *)
Lemma sweep_reshape_zero z : exists e, sweep_reshape z 0 = Raise e.
Proof.
  unfold sweep_reshape, sweep_cutoff, int_truediv. simpl.
  destruct (len z =? 0); eauto.
Qed.


Lemma firstn_add A (n k : nat) (a : list A) :
  firstn (n + k) a = firstn n a ++ firstn k (skipn n a).
Proof.
  revert a; induction n; intros a; simpl; [ reflexivity | ].
  destruct a; simpl; [ now rewrite firstn_nil | ]. now rewrite IHn.
Qed.

Lemma blocks_concat n w a :
  List.concat (blocks n w a) = firstn (n * w) a.
Proof.
  revert a; induction n; intros a; simpl; [ reflexivity | ].
  rewrite IHn, firstn_add. reflexivity.
Qed.


Lemma sweep_cutoff_ok z L :
  0 < L -> L <= len z -> sweep_cutoff z L = Ret (len z / L).
Proof.
  intros H0 HL. unfold sweep_cutoff, int_truediv.
  replace (L =? 0) with false by (symmetry; apply Z.eqb_neq; lia).
  pose proof (len_nonneg z).
  rewrite Z.quot_div_nonneg by lia.
  assert (1 <= len z / L) by (apply Z.div_le_lower_bound; lia).
  f_equal. lia.
Qed.

(** What the reshape keeps of the value column: the rows of the longest
    prefix whose length is a multiple of the sweep length. *)
Lemma sweep_reshape_ok z L :
  0 < L -> L <= len z ->
  sweep_reshape z L =
    Ret (blocks (Z.to_nat (len z / L)) (Z.to_nat L)
                (slice_to z (L * (len z / L)))).
Proof.
  intros H0 HL. unfold sweep_reshape. rewrite sweep_cutoff_ok by assumption.
  unfold reshape.
  replace (L <=? 0) with false by (symmetry; apply Z.leb_gt; lia).
  assert (Hq : 0 <= len z / L) by (apply Z.div_pos; [ apply len_nonneg | lia ]).
  assert (Hm : L * (len z / L) <= len z) by (apply Z.mul_div_le; lia).
  assert (Hl : len (slice_to z (L * (len z / L))) = L * (len z / L)).
  { unfold slice_to, len in *. rewrite length_firstn. lia. }
  rewrite Hl.
  rewrite (Z.mul_comm L), Z_mod_mult, Z.eqb_refl.
  rewrite Z.div_mul by lia. reflexivity.
Qed.

(** ** Running a method step by step *)

Section Wp.

Variables S A : Type.
Variable Q : outcome A -> S -> Prop.
Variable s : S.

Lemma wp_ret a : Q (Ret a) s -> wp (ret a) Q s.
Proof. exact (fun H => H). Qed.

Lemma wp_raise e : Q (Raise e) s -> wp (raise e) Q s.
Proof. exact (fun H => H). Qed.

Lemma wp_lift o : Q o s -> wp (lift o) Q s.
Proof. exact (fun H => H). Qed.

Lemma wp_gets (f : S -> A) : Q (Ret (f s)) s -> wp (gets f) Q s.
Proof. exact (fun H => H). Qed.

Lemma wp_getitem (l : list A) i :
  match py_index l i with
  | Some a => Q (Ret a) s
  | None => Q (Raise IndexError) s
  end ->
  wp (getitem l i) Q s.
Proof. unfold wp, getitem. destruct (py_index l i); exact (fun H => H). Qed.

Lemma wp_bind B (m : M S B) (k : B -> M S A) :
  wp m (fun o s' => match o with
                    | Ret a => wp (k a) Q s'
                    | Raise e => Q (Raise e) s'
                    end) s ->
  wp (bind m k) Q s.
Proof. unfold wp, bind. destruct (m s) as [[a | e] s']; exact (fun H => H). Qed.

Lemma wp_if (b : bool) (m1 m2 : M S A) :
  (if b then wp m1 Q s else wp m2 Q s) -> wp (if b then m1 else m2) Q s.
Proof. destruct b; exact (fun H => H). Qed.

Lemma wp_keeps (R : S -> S -> Prop) (m : M S A) :
  keeps R m -> (forall o s', R s s' -> Q o s') -> wp m Q s.
Proof.
  intros Hk HQ. unfold wp. specialize (Hk s).
  destruct (m s) as [o s']. apply HQ. exact Hk.
Qed.

Lemma wp_run_eq (m : M S A) : wp m Q s -> Q (fst (m s)) (snd (m s)).
Proof. unfold wp. destruct (m s); exact (fun H => H). Qed.

End Wp.

Lemma wp_get S (Q : outcome S -> S -> Prop) s : Q (Ret s) s -> wp get Q s.
Proof. exact (fun H => H). Qed.

Lemma wp_modify S (Q : outcome unit -> S -> Prop) s f :
  Q (Ret tt) (f s) -> wp (modify f) Q s.
Proof. exact (fun H => H). Qed.

Lemma wp_when S (Q : outcome unit -> S -> Prop) s (b : bool) m :
  (if b then wp m Q s else Q (Ret tt) s) -> wp (when b m) Q s.
Proof. destruct b; exact (fun H => H). Qed.

Ltac wp_step :=
  lazymatch goal with
  | |- wp (bind _ _) _ _ => apply wp_bind
  | |- wp (ret _) _ _ => apply wp_ret
  | |- wp (raise _) _ _ => apply wp_raise
  | |- wp (lift _) _ _ => apply wp_lift
  | |- wp get _ _ => apply wp_get
  | |- wp (gets _) _ _ => apply wp_gets
  | |- wp (modify _) _ _ => apply wp_modify
  | |- wp (getitem _ _) _ _ => apply wp_getitem
  | |- wp (when _ _) _ _ => apply wp_when
  | |- wp (if _ then _ else _) _ _ => apply wp_if
  end;
  cbv beta iota.

Ltac wp_run := repeat wp_step.

Lemma extends_without_image_refl l : extends_without_image l l.
Proof. exists []. now rewrite app_nil_r. Qed.

Lemma extends_without_image_trans a b c :
  extends_without_image a b -> extends_without_image b c ->
  extends_without_image a c.
Proof.
  intros (m1 & -> & H1) (m2 & -> & H2). exists (m1 ++ m2).
  rewrite app_assoc, forallb_app, H1, H2. auto.
Qed.

Lemma extends_without_image_snoc l c :
  image_call c = false -> extends_without_image l (l ++ [c]).
Proof. intros H. exists [c]. simpl. now rewrite H. Qed.

(** ** Automation for the three windows *)

Create HintDb heatmap.
#[global] Hint Unfold Heatmap.updateData Heatmap.column Heatmap.var_name
  Heatmap.read_var_names Heatmap.show_empty Heatmap.show_line
  Heatmap.show_image Heatmap.rebuild_selectors Heatmap.emit
  Heatmap.graphs_setCurrentWidget Heatmap.on_xbox Heatmap.on_ybox
  Heatmap.on_zbox Heatmap.xboxindex Heatmap.yboxindex Heatmap.zboxindex
  Heatmap.latest_file Heatmap.livePlotting Heatmap.livePlotToggle
  Heatmap.livePlot_setChecked Heatmap.changeLivePlot
  Heatmap.openFileNameDialog : heatmap.

Create HintDb dual.
#[global] Hint Unfold Dual.updateData Dual.column Dual.var_name
  Dual.read_var_names Dual.show_empty Dual.show_lines
  Dual.rebuild_selectors Dual.emit Dual.on_xbox Dual.on_ybox Dual.on_ybox2
  Dual.xboxindex Dual.yboxindex Dual.ybox2index
  Dual.latest_file Dual.livePlotting Dual.livePlotToggle
  Dual.livePlot_setChecked Dual.changeLivePlot
  Dual.openFileNameDialog : dual.

Create HintDb single.
#[global] Hint Unfold Single.updateData Single.column Single.var_name
  Single.read_var_names Single.show_empty Single.show_line
  Single.rebuild_selectors Single.emit Single.on_xbox Single.on_ybox
  Single.xboxindex Single.yboxindex
  Single.latest_file Single.livePlotting Single.livePlotToggle
  Single.livePlot_setChecked Single.changeLivePlot
  Single.openFileNameDialog : single.

Create HintDb frames.
#[global] Hint Resolve extends_without_image_refl
  extends_without_image_snoc extends_without_image_trans : frames.

Ltac frame_step :=
  lazymatch goal with
  | |- keeps _ (bind _ _) => apply keeps_bind; [ | | intros ]
  | |- keeps _ (ret _) => apply keeps_ret
  | |- keeps _ (raise _) => apply keeps_raise
  | |- keeps _ (lift _) => apply keeps_lift
  | |- keeps _ get => apply keeps_get
  | |- keeps _ (gets _) => apply keeps_gets
  | |- keeps _ (getitem _ _) => apply keeps_getitem
  | |- keeps _ (when false _) => apply keeps_ret
  | |- keeps _ (when _ _) => apply keeps_when
  | |- keeps _ (modify _) => apply keeps_modify; intros; simpl
  | |- keeps _ (match ?o with _ => _ end) =>
      first [ apply keeps_if | destruct o ]
  end.

(** Runs every remaining statement, splitting on each result that the
    hypotheses do not fix. *)
Ltac wp_cases_with tac :=
  repeat (wp_run; simpl; tac;
          try match goal with
              | |- match ?o with _ => _ end => destruct o eqn:?
              | |- wp (match ?o with _ => _ end) _ _ => destruct o eqn:?
              end).

Ltac wp_cases := wp_cases_with idtac.

(** ** C1, C2: the sweep length and the reshape *)

(** C1. The sweep length is 3 for the fast axis [0,0,0,1,1,1,2,2,2], and
    a positive sweep length is always the first index whose sample differs
    from the first sample.  For an axis that never changes value, such as
    [5], the code does not clamp the length to one: the length is 0, the
    row count cannot be computed for any value column, and selecting a
    value axis on a one-record file raises OverflowError. *)
Theorem C1_constant_axis_gives_length_zero_and_raises :
  sweep_length (samples [0; 0; 0; 1; 1; 1; 2; 2; 2]) = Ret 3 /\
  sweep_length (samples [5]) = Ret 0 /\
  (forall fast L,
     sweep_length fast = Ret L -> 0 < L ->
     exists a0 v,
       nth_error fast 0 = Some a0 /\
       nth_error fast (Z.to_nat L) = Some v /\ ~ (v == a0)%Q /\
       forall j u, (j < Z.to_nat L)%nat -> nth_error fast j = Some u ->
                   (u == a0)%Q) /\
  (forall a0 rest, (forall v, In v rest -> (v == a0)%Q) ->
                   sweep_length (a0 :: rest) = Ret 0) /\
  (forall z, exists e, sweep_reshape z 0 = Raise e) /\
  Heatmap.x single_point_loaded = samples [5] /\
  fst (Heatmap.zboxindex single_point_world 2 single_point_loaded)
    = Raise OverflowError.
Proof.
  split; [ reflexivity | ].
  split; [ reflexivity | ].
  split; [ exact sweep_length_first_change | ].
  split; [ exact sweep_length_constant | ].
  split; [ exact sweep_reshape_zero | ].
  split; vm_compute; reflexivity.
Qed.






(** ** The heatmap window: what [updateData] shows *)

Ltac no_image_leaf :=
  unfold no_image_step; simpl; repeat rewrite <- app_assoc; simpl;
  split;
  [ first [ apply extends_without_image_refl | eexists; split; reflexivity ]
  | reflexivity ].

Lemma len_eqb_0_nonempty A (l : list A) : l <> [] -> (len l =? 0) = false.
Proof.
  intros H. apply Z.eqb_neq. intros E. apply len_nil_iff in E. contradiction.
Qed.

Lemma py_index_In A (l : list A) i a : py_index l i = Some a -> In a l.
Proof.
  unfold py_index.
  destruct ((0 <=? i) && (i <? len l)); [ apply nth_error_In | ].
  destruct ((- len l <=? i) && (i <? 0)); [ apply nth_error_In | discriminate ].
Qed.

(** Without a value index, [updateData] stays out of the image branch. *)
Lemma heatmap_updateData_default_no_image w st xi yi nf :
  no_image_step st (snd (Heatmap.updateData w xi yi (-1) nf st)).
Proof.
  apply (wp_run_eq (fun _ s' => no_image_step st s')).
  autounfold with heatmap. wp_cases.
  all: no_image_leaf.
Qed.



(** Every load of a new file leaves the value index on "<none>". *)
Lemma heatmap_updateData_new_zindex w st d xi yi zi :
  parse_data w (Heatmap.filename st) = Ret d ->
  Heatmap.zindex (snd (Heatmap.updateData w xi yi zi true st)) = len d.
Proof.
  intros Hp.
  apply (wp_run_eq (fun _ s' => Heatmap.zindex s' = len d)).
  autounfold with heatmap. wp_run. rewrite Hp. wp_cases.
  all: simpl; rewrite ?len_app, ?len_map; simpl; try reflexivity; try lia.
  all: unfold len; simpl; lia.
Qed.


(** The line branch: x against y. *)
Lemma heatmap_updateData_line w st xi yi zi (newFile : bool) d sx sy vn nx ny :
  parse_data w (Heatmap.filename st) = Ret d ->
  py_index d xi = Some sx -> data sx <> [] ->
  py_index d yi = Some sy ->
  (if newFile then map name d ++ ["<none>"] = vn
   else Heatmap.var_names st = Some vn) ->
  zi = -1 \/ zi = len vn - 1 ->
  py_index vn xi = Some nx -> py_index vn yi = Some ny ->
  let s' := snd (Heatmap.updateData w xi yi zi newFile st) in
  fst (Heatmap.updateData w xi yi zi newFile st) = Ret tt /\
  Heatmap.x s' = data sx /\ Heatmap.y s' = data sy /\
  Heatmap.graphs s' = graphWidget /\
  Heatmap.zindex s' = len vn - 1 /\
  Heatmap.z s' = Heatmap.z st /\
  Heatmap.calls s' =
    Heatmap.calls st ++
      [setCurrentWidget graphWidget; setData data_line (data sx) (data sy);
       setLabel graphWidget "bottom" nx; setLabel graphWidget "left" ny;
       setLabel imageWidget "bottom" nx; setLabel imageWidget "left" ny].
Proof.
  intros Hp Hx Hd Hy Hv Hz Hnx Hny.
  apply (wp_run_eq (fun o s' => o = Ret tt /\ Heatmap.x s' = _ /\
           Heatmap.y s' = _ /\ Heatmap.graphs s' = graphWidget /\
           Heatmap.zindex s' = _ /\ Heatmap.z s' = _ /\
           Heatmap.calls s' = _)).
  pose proof (len_eqb_0_nonempty Hd) as Hl.
  autounfold with heatmap. wp_run. rewrite Hp. wp_run.
  destruct newFile; [ subst vn | ]; simpl;
    (destruct Hz as [ -> | -> ]; simpl;
     wp_cases_with ltac:(rewrite ?Hx, ?Hy, ?Hv, ?Hl, ?Hnx, ?Hny, ?Z.eqb_refl)).
  all: repeat rewrite <- app_assoc; simpl; repeat split; reflexivity.
Qed.



(** ** Frames of the heatmap window *)

Lemma no_image_step_refl s : no_image_step s s.
Proof. split; [ apply extends_without_image_refl | reflexivity ]. Qed.

Lemma no_image_step_trans a b c :
  no_image_step a b -> no_image_step b c -> no_image_step a c.
Proof.
  intros [H1 H2] [H3 H4]. split.
  - eapply extends_without_image_trans; eassumption.
  - congruence.
Qed.

Lemma heatmap_selectors_kept_refl s : heatmap_selectors_kept s s.
Proof. repeat split. Qed.

Lemma heatmap_selectors_kept_trans a b c :
  heatmap_selectors_kept a b -> heatmap_selectors_kept b c ->
  heatmap_selectors_kept a c.
Proof.
  unfold heatmap_selectors_kept. intros H1 H2.
  decompose [and] H1. decompose [and] H2. repeat split; congruence.
Qed.

Lemma heatmap_filename_kept_refl s : heatmap_filename_kept s s.
Proof. reflexivity. Qed.

Lemma heatmap_filename_kept_trans a b c :
  heatmap_filename_kept a b -> heatmap_filename_kept b c ->
  heatmap_filename_kept a c.
Proof. unfold heatmap_filename_kept. congruence. Qed.

#[global] Hint Resolve no_image_step_refl no_image_step_trans
  heatmap_selectors_kept_refl heatmap_selectors_kept_trans
  heatmap_filename_kept_refl heatmap_filename_kept_trans : frames.

Ltac frame_auto db :=
  intros; autounfold with db; repeat frame_step;
  try solve [ eauto with frames ].

(** A refresh leaves the selectors alone. *)
Lemma heatmap_refresh_keeps_selectors w xi yi zi :
  keeps heatmap_selectors_kept (Heatmap.updateData w xi yi zi false).
Proof.
  frame_auto heatmap.
  all: unfold heatmap_selectors_kept; simpl; repeat split; reflexivity.
Qed.

Lemma heatmap_updateData_keeps_filename w xi yi zi nf :
  keeps heatmap_filename_kept (Heatmap.updateData w xi yi zi nf).
Proof.
  frame_auto heatmap.
  all: unfold heatmap_filename_kept; simpl; reflexivity.
Qed.

(** Computing the stamps does not touch the window. *)
Lemma getmtimes_state S A (files : list (A * option Q)) (s : S) :
  snd (getmtimes files s) = s.
Proof.
  induction files as [ | [f [ t | ]] rest IH ]; simpl; try reflexivity.
  unfold bind. destruct (getmtimes rest s) as [[ts | e] s']; simpl in *; auto.
Qed.

Lemma wp_getmtimes S A (files : list (A * option Q))
    (Q : outcome (list Q) -> S -> Prop) s :
  (forall o, Q o s) -> wp (getmtimes files) Q s.
Proof.
  intros H. unfold wp. pose proof (getmtimes_state files s) as E.
  destruct (getmtimes files s) as [o s']. simpl in E. subst s'. apply H.
Qed.

(** A tick of the live loop that keeps the file name leaves the
    selectors alone. *)
Lemma heatmap_livePlotting_same_file_keeps_selectors w st :
  Heatmap.filename (snd (Heatmap.livePlotting w st)) = Heatmap.filename st ->
  heatmap_selectors_kept st (snd (Heatmap.livePlotting w st)).
Proof.
  apply (wp_run_eq (fun _ s' =>
           Heatmap.filename s' = Heatmap.filename st ->
           heatmap_selectors_kept st s')).
  unfold Heatmap.livePlotting, Heatmap.latest_file.
  wp_run. apply wp_getmtimes. intros [ stamps | e ]; wp_run;
    [ | intros _; apply heatmap_selectors_kept_refl ].
  destruct (0 <? Z.of_nat (String.length _));
    [ | intros _; apply heatmap_selectors_kept_refl ].
  wp_run. destruct (String.eqb _ _) eqn:E.
  - wp_run. eapply wp_keeps; [ apply heatmap_refresh_keeps_selectors | ].
    intros o s' Hk. destruct o; wp_run; simpl; intros _; exact Hk.
  - wp_run. simpl. eapply wp_keeps; [ apply heatmap_updateData_keeps_filename | ].
    apply String.eqb_neq in E.
    intros o s' Hk. unfold heatmap_filename_kept in Hk. simpl in Hk.
    destruct o; wp_run; simpl; intros Hf; congruence.
Qed.

(** A tick of the live loop that changes the file stays out of the image
    branch, and so does opening a file by hand. *)
Lemma heatmap_livePlotting_switch_no_image w st :
  Heatmap.filename (snd (Heatmap.livePlotting w st)) <> Heatmap.filename st ->
  no_image_step st (snd (Heatmap.livePlotting w st)).
Proof.
  apply (wp_run_eq (fun _ s' =>
           Heatmap.filename s' <> Heatmap.filename st -> no_image_step st s')).
  unfold Heatmap.livePlotting, Heatmap.latest_file.
  wp_run. apply wp_getmtimes. intros [ stamps | e ]; wp_run;
    [ | intros _; apply no_image_step_refl ].
  destruct (0 <? Z.of_nat (String.length _));
    [ | intros _; apply no_image_step_refl ].
  wp_run. destruct (String.eqb _ _) eqn:E.
  - wp_run. eapply wp_keeps; [ apply heatmap_updateData_keeps_filename | ].
    intros o s' Hk. unfold heatmap_filename_kept in Hk.
    destruct o; wp_run; simpl; intros Hf; congruence.
  - wp_run. simpl.
    eapply wp_keeps with (R := no_image_step);
      [ intros s; apply heatmap_updateData_default_no_image | ].
    intros o s' Hk.
    destruct o; wp_run; simpl; intros _; exact Hk.
Qed.

Lemma heatmap_livePlot_setChecked_no_image b :
  keeps no_image_step (Heatmap.livePlot_setChecked b).
Proof.
  frame_auto heatmap.
  all: no_image_leaf.
Qed.

Lemma heatmap_openFileNameDialog_no_image w f st :
  no_image_step st (snd (Heatmap.openFileNameDialog w f st)).
Proof.
  revert st. change (keeps no_image_step (Heatmap.openFileNameDialog w f)).
  unfold Heatmap.openFileNameDialog.
  repeat frame_step; eauto with frames.
  all: first [ apply heatmap_livePlot_setChecked_no_image
             | intros s; apply heatmap_updateData_default_no_image
             | no_image_leaf ].
Qed.




(** ** The parser of the spec *)


Lemma parse_table_lengths header rows s :
  In s (parse_table header rows) -> len (data s) = len rows.
Proof.
  unfold parse_table. intros Hs.
  apply in_map_iff in Hs as ([i nm] & <- & _). simpl. apply len_map.
Qed.

Lemma parse_table_equal_lengths header rows :
  equal_lengths (parse_table header rows).
Proof.
  intros a b Ha Hb.
  rewrite (parse_table_lengths _ _ _ Ha), (parse_table_lengths _ _ _ Hb).
  reflexivity.
Qed.


(** ** C3: empty series *)




(** ** C6: the "<none>" value axis *)




(** ** The dual-trace window *)

Lemma dual_selectors_kept_refl s : dual_selectors_kept s s.
Proof. repeat split. Qed.

Lemma dual_selectors_kept_trans a b c :
  dual_selectors_kept a b -> dual_selectors_kept b c ->
  dual_selectors_kept a c.
Proof.
  unfold dual_selectors_kept. intros H1 H2.
  decompose [and] H1. decompose [and] H2. repeat split; congruence.
Qed.

Lemma dual_filename_kept_refl s : dual_filename_kept s s.
Proof. reflexivity. Qed.

Lemma dual_filename_kept_trans a b c :
  dual_filename_kept a b -> dual_filename_kept b c -> dual_filename_kept a c.
Proof. unfold dual_filename_kept. congruence. Qed.

#[global] Hint Resolve dual_selectors_kept_refl dual_selectors_kept_trans
  dual_filename_kept_refl dual_filename_kept_trans : frames.

(** A refresh of the dual-trace window leaves the selectors alone,
    whether it ends normally or with an exception. *)
Lemma dual_refresh_keeps_selectors w xi yi yi2 :
  keeps dual_selectors_kept (Dual.updateData w xi yi yi2 false).
Proof.
  frame_auto dual.
  all: unfold dual_selectors_kept; simpl; repeat split; reflexivity.
Qed.

Lemma dual_updateData_keeps_filename w xi yi yi2 nf :
  keeps dual_filename_kept (Dual.updateData w xi yi yi2 nf).
Proof.
  frame_auto dual.
  all: unfold dual_filename_kept; simpl; reflexivity.
Qed.

Lemma dual_livePlotting_same_file_keeps_selectors w st :
  Dual.filename (snd (Dual.livePlotting w st)) = Dual.filename st ->
  dual_selectors_kept st (snd (Dual.livePlotting w st)).
Proof.
  apply (wp_run_eq (fun _ s' =>
           Dual.filename s' = Dual.filename st -> dual_selectors_kept st s')).
  unfold Dual.livePlotting, Dual.latest_file.
  wp_run. apply wp_getmtimes. intros [ stamps | e ]; wp_run;
    [ | intros _; apply dual_selectors_kept_refl ].
  destruct (0 <? Z.of_nat (String.length _));
    [ | intros _; apply dual_selectors_kept_refl ].
  wp_run. destruct (String.eqb _ _) eqn:E.
  - wp_run. eapply wp_keeps; [ apply dual_refresh_keeps_selectors | ].
    intros o s' Hk. destruct o; wp_run; simpl; intros _; exact Hk.
  - wp_run. simpl. eapply wp_keeps; [ apply dual_updateData_keeps_filename | ].
    apply String.eqb_neq in E.
    intros o s' Hk. unfold dual_filename_kept in Hk. simpl in Hk.
    destruct o; wp_run; simpl; intros Hf; congruence.
Qed.

(** What loading a new file does to the selectors of the dual-trace
    window: new contents, indices passed on as they are. *)
Lemma dual_updateData_new_selectors w st d xi yi yi2 :
  parse_data w (Dual.filename st) = Ret d ->
  let s' := snd (Dual.updateData w xi yi yi2 true st) in
  Dual.self_data s' = d /\
  Dual.var_names s' = Some (map name d) /\
  items (Dual.xbox s') = map name d /\
  items (Dual.ybox s') = map name d /\
  items (Dual.ybox2 s') = map name d /\
  Dual.xindex s' = Dual.xindex st /\
  Dual.yindex s' = Dual.yindex st /\
  Dual.yindex2 s' = Dual.yindex2 st.
Proof.
  intros Hp.
  apply (wp_run_eq (fun _ s' =>
    Dual.self_data s' = d /\ Dual.var_names s' = Some (map name d) /\
    items (Dual.xbox s') = map name d /\ items (Dual.ybox s') = map name d /\
    items (Dual.ybox2 s') = map name d /\ Dual.xindex s' = Dual.xindex st /\
    Dual.yindex s' = Dual.yindex st /\ Dual.yindex2 s' = Dual.yindex2 st)).
  autounfold with dual. wp_run. rewrite Hp. wp_cases.
  all: simpl; repeat split; reflexivity.
Qed.

(** The same for the heatmap window, whose value box also offers
    "<none>" and whose value index goes to that position. *)
Lemma heatmap_updateData_new_selectors w st d xi yi zi :
  parse_data w (Heatmap.filename st) = Ret d ->
  let s' := snd (Heatmap.updateData w xi yi zi true st) in
  Heatmap.self_data s' = d /\
  Heatmap.var_names s' = Some (map name d ++ ["<none>"]) /\
  items (Heatmap.xbox s') = map name d /\
  items (Heatmap.ybox s') = map name d /\
  items (Heatmap.zbox s') = map name d ++ ["<none>"] /\
  Heatmap.xindex s' = Heatmap.xindex st /\
  Heatmap.yindex s' = Heatmap.yindex st.
Proof.
  intros Hp.
  apply (wp_run_eq (fun _ s' =>
    Heatmap.self_data s' = d /\
    Heatmap.var_names s' = Some (map name d ++ ["<none>"]) /\
    items (Heatmap.xbox s') = map name d /\
    items (Heatmap.ybox s') = map name d /\
    items (Heatmap.zbox s') = map name d ++ ["<none>"] /\
    Heatmap.xindex s' = Heatmap.xindex st /\
    Heatmap.yindex s' = Heatmap.yindex st)).
  autounfold with heatmap. wp_run. rewrite Hp. wp_cases.
  all: simpl; repeat split; reflexivity.
Qed.




(** ** C7: refresh against new file *)



(** ** C8: what a new file does to the selection *)

(** C8, as the spec states it, fails: the heatmap window has the third
    variable chosen as x axis; the live loop finds a newer file with two
    variables; the index is passed on unclamped, the tick raises
    IndexError and the chosen index, 2, is no index of the two-variable
    file.  The defaults are not clamped either: the first tick of the
    dual-trace window on that file raises on its default second y index. *)
Lemma C8_chosen_index_is_not_clamped :
  Heatmap.xindex third_variable_chosen = 2 /\
  fst (Heatmap.livePlotting two_column_world third_variable_chosen)
    = Raise IndexError /\
  Heatmap.xindex (snd (Heatmap.livePlotting two_column_world third_variable_chosen))
    = 2 /\
  len (Heatmap.self_data
         (snd (Heatmap.livePlotting two_column_world third_variable_chosen)))
    = 2 /\
  fst (Dual.livePlotting two_column_world Dual.init) = Raise IndexError /\
  Dual.yindex2 (snd (Dual.livePlotting two_column_world Dual.init)) = 2.
Proof. repeat split; vm_compute; reflexivity. Qed.

(** C8, amended.  Loading a new file whose parse succeeds rebuilds the
    variable list from the parsed file and resets the contents of the
    boxes to the new names (the value box of the heatmap window also
    offers "<none>"); the chosen x and y indices, or the defaults, are
    passed on as they are, without clamping, and the heatmap window puts
    its value index on "<none>". *)
Theorem C8_new_file_rebuilds_selectors_and_keeps_indices :
  (forall w st d xi yi zi,
     parse_data w (Heatmap.filename st) = Ret d ->
     let s' := snd (Heatmap.updateData w xi yi zi true st) in
     Heatmap.self_data s' = d /\
     Heatmap.var_names s' = Some (map name d ++ ["<none>"]) /\
     items (Heatmap.xbox s') = map name d /\
     items (Heatmap.ybox s') = map name d /\
     items (Heatmap.zbox s') = map name d ++ ["<none>"] /\
     Heatmap.xindex s' = Heatmap.xindex st /\
     Heatmap.yindex s' = Heatmap.yindex st /\
     Heatmap.zindex s' = len d) /\
  (forall w st d xi yi yi2,
     parse_data w (Dual.filename st) = Ret d ->
     let s' := snd (Dual.updateData w xi yi yi2 true st) in
     Dual.self_data s' = d /\
     Dual.var_names s' = Some (map name d) /\
     items (Dual.xbox s') = map name d /\
     items (Dual.ybox s') = map name d /\
     items (Dual.ybox2 s') = map name d /\
     Dual.xindex s' = Dual.xindex st /\
     Dual.yindex s' = Dual.yindex st /\
     Dual.yindex2 s' = Dual.yindex2 st).
Proof.
  split.
  - intros w st d xi yi zi Hp.
    destruct (heatmap_updateData_new_selectors w st xi yi zi Hp)
      as (H1 & H2 & H3 & H4 & H5 & H6 & H7).
    pose proof (heatmap_updateData_new_zindex w st xi yi zi Hp) as H8.
    repeat split; assumption.
  - intros w st d xi yi yi2 Hp.
    exact (dual_updateData_new_selectors w st xi yi yi2 Hp).
Qed.

Lemma C8_two_columns_witness :
  Heatmap.xindex
    (snd (Heatmap.updateData two_column_world 2 1 (-1) true third_variable_chosen))
    = Heatmap.xindex third_variable_chosen.
Proof.
  pose proof C8_new_file_rebuilds_selectors_and_keeps_indices as (H & _).
  destruct (H two_column_world third_variable_chosen _ 2 1 (-1) eq_refl)
    as (_ & _ & _ & _ & _ & Hx & _).
  exact Hx.
Defined.


(** ** C9: a file without records *)



(** ** C10: the value index after a new file *)

Lemma py_index_names_none (d : list series) i sx :
  py_index d i = Some sx -> 0 <= i ->
  py_index (map name d ++ ["<none>"]) i = Some (name sx).
Proof.
  intros H Hi. apply py_index_app_l; [ exact Hi | ].
  rewrite py_index_map, H. reflexivity.
Qed.

Lemma py_index_last_none (names : list string) :
  py_index (names ++ ["<none>"]) (len names) = Some "<none>".
Proof.
  rewrite py_index_nonneg by apply len_nonneg.
  unfold len. rewrite Nat2Z.id, nth_error_app2 by lia.
  rewrite Nat.sub_diag. reflexivity.
Qed.

(** C10. In the heatmap window every load of a new file whose parse
    succeeds leaves the value index on the position of "<none>", one past
    the variables of the file, whatever it was before.  The loads made by
    the live loop on a file change and by the file dialog pass no value
    index: they make no call of the image branch, and when the x column
    is not empty they show the line of x against y. *)
Theorem C10_new_file_resets_value_index_to_none :
  (forall w st d xi yi zi,
     parse_data w (Heatmap.filename st) = Ret d ->
     let s' := snd (Heatmap.updateData w xi yi zi true st) in
     Heatmap.zindex s' = len (map name d) /\
     Heatmap.var_names s' = Some (map name d ++ ["<none>"]) /\
     py_index (map name d ++ ["<none>"]) (Heatmap.zindex s') = Some "<none>") /\
  (forall w st xi yi,
     no_image_step st (snd (Heatmap.updateData w xi yi (-1) true st))) /\
  (forall w st,
     Heatmap.filename (snd (Heatmap.livePlotting w st)) <> Heatmap.filename st ->
     no_image_step st (snd (Heatmap.livePlotting w st))) /\
  (forall w f st, no_image_step st (snd (Heatmap.openFileNameDialog w f st))) /\
  (forall w st d xi yi sx sy,
     parse_data w (Heatmap.filename st) = Ret d ->
     0 <= xi -> 0 <= yi ->
     py_index d xi = Some sx -> data sx <> [] ->
     py_index d yi = Some sy ->
     let s' := snd (Heatmap.updateData w xi yi (-1) true st) in
     fst (Heatmap.updateData w xi yi (-1) true st) = Ret tt /\
     Heatmap.graphs s' = graphWidget /\
     Heatmap.x s' = data sx /\ Heatmap.y s' = data sy /\
     In (setData data_line (data sx) (data sy)) (Heatmap.calls s')).
Proof.
  split.
  { intros w st d xi yi zi Hp.
    pose proof (heatmap_updateData_new_zindex w st xi yi zi Hp) as Hz.
    destruct (heatmap_updateData_new_selectors w st xi yi zi Hp)
      as (_ & Hv & _).
    cbv zeta. rewrite Hz, len_map. repeat split; [ exact Hv | ].
    rewrite <- (len_map name). apply py_index_last_none. }
  split; [ intros; apply heatmap_updateData_default_no_image | ].
  split; [ intros; apply heatmap_livePlotting_switch_no_image; assumption | ].
  split; [ intros; apply heatmap_openFileNameDialog_no_image | ].
  intros w st d xi yi sx sy Hp Hxi Hyi Hx Hd Hy.
  destruct (@heatmap_updateData_line w st xi yi (-1) true d sx sy
              (map name d ++ ["<none>"]) (name sx) (name sy)
              Hp Hx Hd Hy eq_refl (or_introl eq_refl)
              (@py_index_names_none d xi sx Hx Hxi)
              (@py_index_names_none d yi sy Hy Hyi))
    as (H1 & H2 & H3 & H4 & _ & _ & H7).
  repeat split; try assumption.
  rewrite H7. apply in_or_app. right. right. left. reflexivity.
Qed.

Lemma C10_ten_records_witness :
  Heatmap.zindex
    (snd (Heatmap.updateData ten_records_world 0 1 (-1) true Heatmap.init)) = 3.
Proof.
  pose proof C10_new_file_resets_value_index_to_none as (H & _).
  exact (proj1 (H ten_records_world Heatmap.init _ 0 1 (-1) eq_refl)).
Defined.


(** ** C4, C5: the most recent file of the watched folder *)

Lemma Qlt_bool_iff a b : Qlt_bool a b = true <-> (a < b)%Q.
Proof.
  unfold Qlt_bool. rewrite negb_true_iff. split.
  - intros H. apply Qnot_le_lt. intros Hle.
    apply Qle_bool_iff in Hle. congruence.
  - intros H. destruct (Qle_bool b a) eqn:E; [ | reflexivity ].
    apply Qle_bool_iff in E. exfalso. eapply Qlt_not_le; eassumption.
Qed.

Lemma Qlt_bool_false a b : Qlt_bool a b = false -> (b <= a)%Q.
Proof.
  unfold Qlt_bool. rewrite negb_false_iff. apply Qle_bool_iff.
Qed.

Lemma latest_step_inv seen acc fs :
  latest_inv seen acc -> latest_inv (seen ++ [fs]) (latest_step acc fs).
Proof.
  destruct acc as [m lf], fs as [f s]. unfold latest_inv, latest_step. simpl.
  intros (H0 & Hmax & Hsel).
  destruct (str_in ".csv" f) eqn:Ef.
  - destruct (Qlt_bool m s) eqn:Elt; simpl.
    + apply Qlt_bool_iff in Elt.
      split; [ eapply Qle_trans; [ exact H0 | apply Qlt_le_weak; exact Elt ] | ].
      split.
      * intros f' s' Hin Hf'. apply in_app_or in Hin as [ Hin | Hin ].
        -- eapply Qle_trans; [ eapply Hmax; eassumption | ].
           apply Qlt_le_weak; exact Elt.
        -- destruct Hin as [ E | [] ]. injection E as _ <-. apply Qle_refl.
      * right. split; [ apply in_or_app; right; left; reflexivity | ].
        split; [ exact Ef | ]. eapply Qle_lt_trans; eassumption.
    + apply Qlt_bool_false in Elt.
      split; [ exact H0 | ]. split.
      * intros f' s' Hin Hf'. apply in_app_or in Hin as [ Hin | Hin ].
        -- eapply Hmax; eassumption.
        -- destruct Hin as [ E | [] ]. injection E as _ <-. exact Elt.
      * destruct Hsel as [ Hsel | (Hin & Hs & Hpos) ]; [ left; exact Hsel | ].
        right. split; [ apply in_or_app; left; exact Hin | auto ].
  - simpl. split; [ exact H0 | ]. split.
    + intros f' s' Hin Hf'. apply in_app_or in Hin as [ Hin | Hin ].
      * eapply Hmax; eassumption.
      * destruct Hin as [ E | [] ]. injection E as <- _. congruence.
    + destruct Hsel as [ Hsel | (Hin & Hs & Hpos) ]; [ left; exact Hsel | ].
      right. split; [ apply in_or_app; left; exact Hin | auto ].
Qed.

Lemma latest_fold_inv l seen acc :
  latest_inv seen acc -> latest_inv (seen ++ l) (fold_left latest_step l acc).
Proof.
  revert seen acc. induction l as [ | fs l IH ]; intros seen acc H; simpl.
  - now rewrite app_nil_r.
  - replace (seen ++ fs :: l) with ((seen ++ [fs]) ++ l)
      by (rewrite <- app_assoc; reflexivity).
    apply IH. apply latest_step_inv. exact H.
Qed.

(** The loop returns [''] when no file whose path contains ".csv" has a
    positive stamp, and otherwise a file whose path contains ".csv" and
    whose stamp is the largest among those files. *)
Lemma latest_loop_spec files stamps :
  let latest := latest_loop files stamps in
  (latest = "" /\
   forall f s, In (f, s) (combine files stamps) ->
               str_in ".csv" f = true -> (s <= 0)%Q) \/
  (exists m,
     In (latest, m) (combine files stamps) /\
     str_in ".csv" latest = true /\ (0 < m)%Q /\
     forall f s, In (f, s) (combine files stamps) ->
                 str_in ".csv" f = true -> (s <= m)%Q).
Proof.
  unfold latest_loop.
  assert (H0 : latest_inv [] (0%Q, "")).
  { split; [ apply Qle_refl | ]. split; [ intros f s [] | left; auto ]. }
  apply (latest_fold_inv (combine files stamps)) in H0. simpl in H0.
  destruct (fold_left latest_step (combine files stamps) (0%Q, "")) as [m lf].
  destruct H0 as (Hpos & Hmax & Hsel). simpl in *.
  destruct Hsel as [ [-> ->] | (Hin & Hs & Hp) ].
  - left. split; [ reflexivity | exact Hmax ].
  - right. exists m. auto.
Qed.

(** C4. The loop tests whether ".csv" occurs in the path, not whether the
    path ends with it: with the files a.csv (stamp 1) and b.csv.bak
    (stamp 2) in the folder, the three windows select b.csv.bak, whose
    name does not end with ".csv", and a tick of the heatmap window loads
    it.  In general the file returned is one whose path contains ".csv"
    and whose stamp is positive and largest among such files, and ['']
    is returned when there is no such file. *)
Theorem C4_file_with_csv_inside_its_name_is_selected :
  fst (Heatmap.latest_file backup_newer_world Heatmap.init)
    = Ret "Data/b.csv.bak" /\
  fst (Dual.latest_file backup_newer_world Dual.init)
    = Ret "Data/b.csv.bak" /\
  fst (Single.latest_file backup_newer_world Single.init)
    = Ret "b.csv.bak" /\
  str_endswith ".csv" "Data/b.csv.bak" = false /\
  str_endswith ".csv" "Data/a.csv" = true /\
  Heatmap.filename (snd (Heatmap.livePlotting backup_newer_world Heatmap.init))
    = "/home/qtm/Data/b.csv.bak" /\
  (forall files stamps,
     let latest := latest_loop files stamps in
     (latest = "" /\
      forall f s, In (f, s) (combine files stamps) ->
                  str_in ".csv" f = true -> (s <= 0)%Q) \/
     (exists m,
        In (latest, m) (combine files stamps) /\
        str_in ".csv" latest = true /\ (0 < m)%Q /\
        forall f s, In (f, s) (combine files stamps) ->
                    str_in ".csv" f = true -> (s <= m)%Q)).
Proof.
  repeat (split; [ vm_compute; reflexivity | ]).
  exact latest_loop_spec.
Qed.

(** C5. When the folder [Data] is missing or cannot be read, a tick of
    the single-trace window, which lists the folder with [os.listdir],
    raises OSError; the heatmap and the dual-trace window, which walk the
    folder with [os.walk], find no file and leave the window as it is.
    With an empty folder the three windows find no file and leave the
    window as it is.  A file whose modification time cannot be read makes
    the tick of the heatmap window raise as well. *)
Theorem C5_missing_folder_raises_in_single_window :
  (forall parse abs st,
     Single.livePlotting (mk_world None parse abs) st = (Raise OSError, st)) /\
  (forall parse abs st,
     Heatmap.livePlotting (mk_world None parse abs) st = (Ret tt, st)) /\
  (forall parse abs st,
     Dual.livePlotting (mk_world None parse abs) st = (Ret tt, st)) /\
  (forall parse abs st,
     Single.livePlotting (mk_world (Some []) parse abs) st = (Ret tt, st)) /\
  (forall parse abs st,
     Heatmap.livePlotting (mk_world (Some []) parse abs) st = (Ret tt, st)) /\
  (forall parse abs st,
     Dual.livePlotting (mk_world (Some []) parse abs) st = (Ret tt, st)) /\
  (forall st,
     Heatmap.livePlotting vanished_file_world st = (Raise OSError, st)).
Proof.
  repeat split; intros; reflexivity.
Qed.


(** * Further properties of the windows *)

(** ** The image branch on a well-formed file *)

Lemma py_index_in_range A (l : list A) i :
  0 <= i < len l -> exists a, py_index l i = Some a.
Proof.
  intros Hi. rewrite py_index_nonneg by lia.
  destruct (nth_error l (Z.to_nat i)) eqn:E; eauto.
  apply nth_error_None in E. unfold len in Hi. lia.
Qed.

Lemma py_index_last A (l : list A) :
  0 < len l -> exists a, py_index l (-1) = Some a.
Proof.
  intros Hl. unfold py_index.
  replace ((0 <=? -1) && (-1 <? len l)) with false by reflexivity.
  replace ((- len l <=? -1) && (-1 <? 0)) with true
    by (symmetry; apply andb_true_intro; split;
        [ apply Z.leb_le; lia | reflexivity ]).
  destruct (nth_error l (Z.to_nat (len l + -1))) eqn:E; eauto.
  apply nth_error_None in E. unfold len in *. lia.
Qed.

Lemma sweep_length_range fast L :
  sweep_length fast = Ret L -> 0 <= L /\ (0 < L -> L < len fast).
Proof.
  unfold sweep_length. destruct (py_index fast 0); [ | discriminate ].
  intros H. injection H as <-. unfold argmax.
  destruct (first_true (ne_mask fast q)) as [ i | ] eqn:E; [ | lia ].
  apply first_true_Some in E as [E _].
  assert (i < List.length (ne_mask fast q))%nat
    by (apply nth_error_Some; congruence).
  unfold ne_mask in H. rewrite length_map in H. unfold len. lia.
Qed.

Lemma fold_Qmin_spec l v :
  (In (fold_left Qmin l v) (v :: l)) /\
  forall u, In u (v :: l) -> (fold_left Qmin l v <= u)%Q.
Proof.
  revert v. induction l as [ | a l IH ]; intros v; simpl.
  - split; [ left; reflexivity | ].
    intros u [ <- | [] ]. apply Qle_refl.
  - destruct (IH (Qmin v a)) as [Hin Hle]. split.
    + destruct Hin as [ Hin | Hin ]; [ | right; right; exact Hin ].
      rewrite <- Hin. unfold Qmin, GenericMinMax.gmin.
      destruct (v ?= a)%Q; auto.
    + intros u Hu.
      assert (Hm : (fold_left Qmin l (Qmin v a) <= Qmin v a)%Q)
        by (apply Hle; left; reflexivity).
      destruct Hu as [ <- | [ <- | Hu ] ].
      * eapply Qle_trans; [ exact Hm | apply Q.le_min_l ].
      * eapply Qle_trans; [ exact Hm | apply Q.le_min_r ].
      * apply Hle. right. exact Hu.
Qed.

Lemma fold_Qmax_spec l v :
  (In (fold_left Qmax l v) (v :: l)) /\
  forall u, In u (v :: l) -> (u <= fold_left Qmax l v)%Q.
Proof.
  revert v. induction l as [ | a l IH ]; intros v; simpl.
  - split; [ left; reflexivity | ].
    intros u [ <- | [] ]. apply Qle_refl.
  - destruct (IH (Qmax v a)) as [Hin Hle]. split.
    + destruct Hin as [ Hin | Hin ]; [ | right; right; exact Hin ].
      rewrite <- Hin. unfold Qmax, GenericMinMax.gmax.
      destruct (v ?= a)%Q; auto.
    + intros u Hu.
      assert (Hm : (Qmax v a <= fold_left Qmax l (Qmax v a))%Q)
        by (apply Hle; left; reflexivity).
      destruct Hu as [ <- | [ <- | Hu ] ].
      * eapply Qle_trans; [ apply Q.le_max_l | exact Hm ].
      * eapply Qle_trans; [ apply Q.le_max_r | exact Hm ].
      * apply Hle. right. exact Hu.
Qed.

(** [np.min] and [np.max] of an array with at least one element return
    elements of the array that bound all its elements. *)
Lemma np_min_max_spec g :
  List.concat g <> [] ->
  exists lo hi,
    np_min g = Ret lo /\ np_max g = Ret hi /\
    In lo (List.concat g) /\ In hi (List.concat g) /\
    forall v, In v (List.concat g) -> (lo <= v <= hi)%Q.
Proof.
  unfold np_min, np_max. destruct (List.concat g) as [ | v r ]; [ congruence | ].
  intros _. destruct (fold_Qmin_spec r v) as [H1 H2].
  destruct (fold_Qmax_spec r v) as [H3 H4].
  exists (fold_left Qmin r v), (fold_left Qmax r v).
  repeat split; auto.
Qed.

Lemma blocks_nonempty n w a :
  (0 < n)%nat -> (0 < w)%nat -> (n * w <= List.length a)%nat ->
  List.concat (blocks n w a) <> [].
Proof.
  intros Hn Hw Hl. rewrite blocks_concat.
  intros E. apply (f_equal (@List.length Q)) in E.
  rewrite length_firstn in E. simpl in E. nia.
Qed.

Lemma transpose_nonempty L g :
  0 < L -> g <> [] -> List.concat (transpose L g) <> [].
Proof.
  intros HL Hg. unfold transpose.
  destruct (Z.to_nat L) as [ | k ] eqn:E; [ lia | ].
  simpl. destruct g as [ | r g' ]; [ congruence | ]. simpl. discriminate.
Qed.


(** The image branch succeeds on a well-formed file whose fast axis
    changes value. *)
Lemma heatmap_updateData_image w st xi yi zi d sx sy sz vn nx ny L :
  parse_data w (Heatmap.filename st) = Ret d ->
  equal_lengths d ->
  py_index d xi = Some sx -> py_index d yi = Some sy ->
  py_index d zi = Some sz ->
  Heatmap.var_names st = Some vn ->
  zi <> -1 -> zi <> len vn - 1 ->
  py_index vn xi = Some nx -> py_index vn yi = Some ny ->
  sweep_length (if Heatmap.slowbox st then data sy else data sx) = Ret L ->
  0 < L ->
  let n := len (data sz) / L in
  let g := blocks (Z.to_nat n) (Z.to_nat L) (slice_to (data sz) (L * n)) in
  let img := if Heatmap.slowbox st then transpose L g else g in
  let s' := snd (Heatmap.updateData w xi yi zi false st) in
  exists rx ry rw rh lo hi,
    fst (Heatmap.updateData w xi yi zi false st) = Ret tt /\
    Heatmap.graphs s' = imageWidget /\
    Heatmap.x s' = data sx /\ Heatmap.y s' = data sy /\
    Heatmap.z s' = Some (Arr2 img) /\
    Heatmap.zindex s' = Heatmap.zindex st /\
    Heatmap.calls s' =
      Heatmap.calls st ++
        [setCurrentWidget imageWidget; setImage img; setRect rx ry rw rh;
         setLevels lo hi;
         setLabel graphWidget "bottom" nx; setLabel graphWidget "left" ny;
         setLabel imageWidget "bottom" nx; setLabel imageWidget "left" ny] /\
    In lo (List.concat img) /\ In hi (List.concat img) /\
    forall v, In v (List.concat img) -> (lo <= v <= hi)%Q.
Proof.
  intros Hp Heq Hx Hy Hz Hv Hz1 Hz2 Hnx Hny HL H0 n g img s'.
  assert (Exy : len (data sx) = len (data sy))
    by (apply Heq; eapply py_index_In; eassumption).
  assert (Exz : len (data sx) = len (data sz))
    by (apply Heq; eapply py_index_In; eassumption).
  assert (Hlen : L < len (data sx)).
  { destruct (sweep_length_range _ HL) as [_ Hr].
    destruct (Heatmap.slowbox st); [ rewrite Exy | ]; apply Hr; exact H0. }
  assert (Hle : L <= len (data sz)) by lia.
  assert (Hne : data sx <> []).
  { intros E. rewrite E in Hlen. unfold len in Hlen. simpl in Hlen. lia. }
  pose proof (len_eqb_0_nonempty Hne) as Hl0.
  apply Z.eqb_neq in Hz1, Hz2.
  assert (Hn1 : 1 <= n) by (apply Z.div_le_lower_bound; lia).
  assert (Hm : L * n <= len (data sz)) by (apply Z.mul_div_le; lia).
  assert (Hg : List.concat g <> []).
  { subst g. apply blocks_nonempty; try lia.
    unfold slice_to. rewrite length_firstn. unfold len in Hm. nia. }
  assert (Hg' : g <> []).
  { intros E. rewrite E in Hg. simpl in Hg. congruence. }
  assert (Himg : List.concat img <> []).
  { subst img. destruct (Heatmap.slowbox st);
      [ apply transpose_nonempty; assumption | exact Hg ]. }
  destruct (@np_min_max_spec img Himg) as (lo & hi & Hlo & Hhi & Hinlo & Hinhi & Hb).
  destruct (@py_index_in_range _ (data sx) 0) as [x0 Hx0]; [ lia | ].
  destruct (@py_index_in_range _ (data sx) 1) as [x1 Hx1]; [ lia | ].
  destruct (@py_index_in_range _ (data sx) L) as [xl HxL]; [ lia | ].
  destruct (@py_index_in_range _ (data sx) (L - 1)) as [xm Hxm]; [ lia | ].
  destruct (@py_index_last _ (data sx)) as [xe Hxe]; [ lia | ].
  destruct (@py_index_in_range _ (data sy) 0) as [y0 Hy0]; [ lia | ].
  destruct (@py_index_in_range _ (data sy) 1) as [y1 Hy1]; [ lia | ].
  destruct (@py_index_in_range _ (data sy) L) as [yl HyL]; [ lia | ].
  destruct (@py_index_in_range _ (data sy) (L - 1)) as [ym Hym]; [ lia | ].
  destruct (@py_index_last _ (data sy)) as [ye Hye]; [ lia | ].
  pose proof (sweep_reshape_ok _ H0 Hle) as Hr. fold n in Hr. fold g in Hr.
  subst s'.
  destruct (Heatmap.slowbox st) eqn:Eslow;
    subst img; cbv beta iota in Hlo, Hhi, Hinlo, Hinhi, Hb |- *.
  - exists (x0 - (1 # 2) * (x1 - x0))%Q, (y0 - (1 # 2) * (yl - y0))%Q,
      (xm - x0 + (x1 - x0))%Q, (ye - y0 + (yl - y0))%Q, lo, hi.
    apply (wp_run_eq (fun o s' => o = Ret tt /\
      Heatmap.graphs s' = imageWidget /\ Heatmap.x s' = _ /\
      Heatmap.y s' = _ /\ Heatmap.z s' = _ /\ Heatmap.zindex s' = _ /\
      Heatmap.calls s' = _ /\ _)).
    autounfold with heatmap. wp_run. rewrite Hp.
    repeat (wp_run; simpl;
            rewrite ?Hx, ?Hy, ?Hz, ?Hv, ?Hl0, ?Hz1, ?Hz2, ?Eslow, ?HL, ?Hr,
              ?Hx0, ?Hx1, ?Hxm, ?Hy0, ?HyL, ?Hye, ?Hlo, ?Hhi, ?Hnx, ?Hny;
            simpl).
    repeat rewrite <- app_assoc. simpl.
    repeat (split; [ reflexivity | ]). auto.
  - exists (x0 - (1 # 2) * (xl - x0))%Q, (y0 - (1 # 2) * (y1 - y0))%Q,
      (xe - x0 + (xl - x0))%Q, (ym - y0 + (y1 - y0))%Q, lo, hi.
    apply (wp_run_eq (fun o s' => o = Ret tt /\
      Heatmap.graphs s' = imageWidget /\ Heatmap.x s' = _ /\
      Heatmap.y s' = _ /\ Heatmap.z s' = _ /\ Heatmap.zindex s' = _ /\
      Heatmap.calls s' = _ /\ _)).
    autounfold with heatmap. wp_run. rewrite Hp.
    repeat (wp_run; simpl;
            rewrite ?Hx, ?Hy, ?Hz, ?Hv, ?Hl0, ?Hz1, ?Hz2, ?Eslow, ?HL, ?Hr,
              ?Hx0, ?HxL, ?Hxe, ?Hy0, ?Hy1, ?Hym, ?Hlo, ?Hhi, ?Hnx, ?Hny;
            simpl).
    repeat rewrite <- app_assoc. simpl.
    repeat (split; [ reflexivity | ]). auto.
Qed.


Lemma wp_eq S A (m : M S A) s r :
  wp m (fun o s' => (o, s') = r) s -> m s = r.
Proof. unfold wp. destruct (m s). exact (fun H => H). Qed.

(** With a constant fast axis the image branch raises before any image is
    set. *)
Lemma heatmap_updateData_constant_axis w st xi yi zi d sx sy sz vn :
  parse_data w (Heatmap.filename st) = Ret d ->
  py_index d xi = Some sx -> py_index d yi = Some sy ->
  py_index d zi = Some sz ->
  data sx <> [] -> data sz <> [] ->
  Heatmap.var_names st = Some vn ->
  zi <> -1 -> zi <> len vn - 1 ->
  sweep_length (if Heatmap.slowbox st then data sy else data sx) = Ret 0 ->
  Heatmap.updateData w xi yi zi false st =
    (Raise OverflowError,
     Heatmap.set_z (Some (Arr1 (data sz)))
       (Heatmap.set_y (data sy)
          (Heatmap.set_x (data sx)
             (Heatmap.set_calls
                (Heatmap.calls st ++ [setCurrentWidget imageWidget])
                (Heatmap.set_graphs imageWidget
                   (Heatmap.set_self_data d st)))))).
Proof.
  intros Hp Hx Hy Hz Hnx Hnz Hv Hz1 Hz2 HL.
  pose proof (len_eqb_0_nonempty Hnx) as Hl0.
  pose proof (len_eqb_0_nonempty Hnz) as Hlz.
  apply Z.eqb_neq in Hz1, Hz2.
  assert (Hr : sweep_reshape (data sz) 0 = Raise OverflowError).
  { unfold sweep_reshape, sweep_cutoff, int_truediv. simpl. now rewrite Hlz. }
  apply wp_eq.
  autounfold with heatmap. wp_run. rewrite Hp.
  destruct (Heatmap.slowbox st) eqn:Eslow;
    repeat (wp_run; simpl;
            rewrite ?Hx, ?Hy, ?Hz, ?Hv, ?Hl0, ?Hz1, ?Hz2, ?Eslow, ?HL, ?Hr;
            simpl);
    reflexivity.
Qed.


(** ** The line branch of the single-trace and dual-trace windows *)

(** X3. In the single-trace window, for a parse that succeeds, an x index
    and a y index inside the parsed file and the variable names, and an
    x column that is not empty, [updateData] returns normally: it keeps
    the parsed file, takes the two columns as [self.x] and [self.y],
    sets them on the line and labels the bottom and the left axis with
    the two variable names; it makes no other call. *)
Theorem X3_single_window_plots_x_against_y w st xi yi (newFile : bool) d sx
    sy vn nx ny :
  parse_data w (Single.filename st) = Ret d ->
  py_index d xi = Some sx -> data sx <> [] ->
  py_index d yi = Some sy ->
  (if newFile then map name d = vn else Single.var_names st = Some vn) ->
  py_index vn xi = Some nx -> py_index vn yi = Some ny ->
  let s' := snd (Single.updateData w xi yi newFile st) in
  fst (Single.updateData w xi yi newFile st) = Ret tt /\
  Single.self_data s' = d /\
  Single.x s' = data sx /\ Single.y s' = data sy /\
  Single.calls s' =
    Single.calls st ++
      [setData data_line (data sx) (data sy);
       setLabel graphWidget "bottom" nx; setLabel graphWidget "left" ny].
Proof.
  intros Hp Hx Hd Hy Hv Hnx Hny.
  apply (wp_run_eq (fun o s' => o = Ret tt /\ Single.self_data s' = _ /\
           Single.x s' = _ /\ Single.y s' = _ /\ Single.calls s' = _)).
  pose proof (len_eqb_0_nonempty Hd) as Hl.
  autounfold with single. wp_run. rewrite Hp. wp_run.
  destruct newFile; [ subst vn | ]; simpl;
    repeat (wp_run; simpl; rewrite ?Hx, ?Hy, ?Hv, ?Hl, ?Hnx, ?Hny).
  all: repeat rewrite <- app_assoc; simpl; repeat split; reflexivity.
Qed.

(** X4. In the dual-trace window, under the same conditions for the three
    indices, [updateData] returns normally and sets both lines on the
    same x column: the first line is x against the first y column, the
    second line x against the second y column, and the left label names
    both y variables. *)
Theorem X4_dual_window_plots_two_lines_on_one_x w st xi yi yi2
    (newFile : bool) d sx sy sy2 vn nx ny ny2 :
  parse_data w (Dual.filename st) = Ret d ->
  py_index d xi = Some sx -> data sx <> [] ->
  py_index d yi = Some sy -> py_index d yi2 = Some sy2 ->
  (if newFile then map name d = vn else Dual.var_names st = Some vn) ->
  py_index vn xi = Some nx -> py_index vn yi = Some ny ->
  py_index vn yi2 = Some ny2 ->
  let s' := snd (Dual.updateData w xi yi yi2 newFile st) in
  fst (Dual.updateData w xi yi yi2 newFile st) = Ret tt /\
  Dual.self_data s' = d /\
  Dual.x s' = data sx /\ Dual.y s' = data sy /\ Dual.y2 s' = data sy2 /\
  Dual.calls s' =
    Dual.calls st ++
      [setData data_line (data sx) (data sy);
       setData data_line2 (data sx) (data sy2);
       setLabel graphWidget "bottom" nx;
       setLabel graphWidget "left"
         (String.append "1: " (String.append ny (String.append ", 2: " ny2)))].
Proof.
  intros Hp Hx Hd Hy Hy2 Hv Hnx Hny Hny2.
  apply (wp_run_eq (fun o s' => o = Ret tt /\ Dual.self_data s' = _ /\
           Dual.x s' = _ /\ Dual.y s' = _ /\ Dual.y2 s' = _ /\
           Dual.calls s' = _)).
  pose proof (len_eqb_0_nonempty Hd) as Hl.
  autounfold with dual. wp_run. rewrite Hp. wp_run.
  destruct newFile; [ subst vn | ]; simpl;
    repeat (wp_run; simpl; rewrite ?Hx, ?Hy, ?Hy2, ?Hv, ?Hl, ?Hnx, ?Hny, ?Hny2).
  all: repeat rewrite <- app_assoc; simpl; repeat split; reflexivity.
Qed.

(** ** Exceptions of [updateData] *)

(** X5. When [parse_data] raises, [updateData] raises the same exception
    and leaves the window exactly as it was, in the three windows and
    whether or not a new file is being loaded. *)
Theorem X5_failing_parse_leaves_window_untouched w e :
  (forall st xi yi zi nf,
     parse_data w (Heatmap.filename st) = Raise e ->
     Heatmap.updateData w xi yi zi nf st = (Raise e, st)) /\
  (forall st xi yi yi2 nf,
     parse_data w (Dual.filename st) = Raise e ->
     Dual.updateData w xi yi yi2 nf st = (Raise e, st)) /\
  (forall st xi yi nf,
     parse_data w (Single.filename st) = Raise e ->
     Single.updateData w xi yi nf st = (Raise e, st)).
Proof.
  repeat split; intros; apply wp_eq.
  - unfold Heatmap.updateData. wp_run. rewrite H. reflexivity.
  - unfold Dual.updateData. wp_run. rewrite H. reflexivity.
  - unfold Single.updateData. wp_run. rewrite H. reflexivity.
Qed.

(** X6. When the x index is no index of the parsed file, a refresh raises
    IndexError in the three windows; the parsed file has been stored in
    [self.data] and nothing else has changed: no call was made and the
    plotted columns are those of before. *)
Theorem X6_x_index_out_of_range_raises_IndexError w d :
  (forall st xi yi zi,
     parse_data w (Heatmap.filename st) = Ret d -> py_index d xi = None ->
     Heatmap.updateData w xi yi zi false st
       = (Raise IndexError, Heatmap.set_self_data d st)) /\
  (forall st xi yi yi2,
     parse_data w (Dual.filename st) = Ret d -> py_index d xi = None ->
     Dual.updateData w xi yi yi2 false st
       = (Raise IndexError, Dual.set_self_data d st)) /\
  (forall st xi yi,
     parse_data w (Single.filename st) = Ret d -> py_index d xi = None ->
     Single.updateData w xi yi false st
       = (Raise IndexError, Single.set_self_data d st)).
Proof.
  repeat split; intros st; intros; apply wp_eq.
  - autounfold with heatmap. wp_run. rewrite H.
    repeat (wp_run; simpl; rewrite ?H0). reflexivity.
  - autounfold with dual. wp_run. rewrite H.
    repeat (wp_run; simpl; rewrite ?H0). reflexivity.
  - autounfold with single. wp_run. rewrite H.
    repeat (wp_run; simpl; rewrite ?H0). reflexivity.
Qed.

Lemma py_index_None_iff A (l : list A) i :
  py_index l i = None <-> i < - len l \/ len l <= i.
Proof.
  split.
  - intros H. destruct (Z_lt_ge_dec i (- len l)) as [ | H1 ]; [ auto | ].
    destruct (Z_le_gt_dec (len l) i) as [ | H2 ]; [ auto | ]. exfalso.
    unfold py_index in H.
    destruct (Z_lt_ge_dec i 0).
    + replace ((0 <=? i) && (i <? len l)) with false in H
        by (symmetry; apply andb_false_iff; left; apply Z.leb_gt; lia).
      replace ((- len l <=? i) && (i <? 0)) with true in H
        by (symmetry; apply andb_true_intro; split;
            [ apply Z.leb_le | apply Z.ltb_lt ]; lia).
      apply nth_error_None in H. unfold len in *. lia.
    + replace ((0 <=? i) && (i <? len l)) with true in H
        by (symmetry; apply andb_true_intro; split;
            [ apply Z.leb_le | apply Z.ltb_lt ]; lia).
      apply nth_error_None in H. unfold len in *. lia.
  - intros H. unfold py_index.
    replace ((0 <=? i) && (i <? len l)) with false.
    + replace ((- len l <=? i) && (i <? 0)) with false; [ reflexivity | ].
      symmetry. apply andb_false_iff. pose proof (len_nonneg l).
      destruct H; [ left; apply Z.leb_gt | right; apply Z.ltb_ge ]; lia.
    + symmetry. apply andb_false_iff. pose proof (len_nonneg l).
      destruct H; [ left; apply Z.leb_gt | right; apply Z.ltb_ge ]; lia.
Qed.


(** ** The selection loop: which file wins *)

Lemma latest_first_step seen acc fs :
  latest_first_inv seen acc ->
  latest_first_inv (seen ++ [fs]) (latest_step acc fs).
Proof.
  destruct acc as [m lf], fs as [f s]. unfold latest_first_inv, latest_step.
  simpl. intros Hsel.
  destruct (str_in ".csv" f) eqn:Ef.
  - destruct (Qlt_bool m s) eqn:Elt; simpl.
    + apply Qlt_bool_iff in Elt. right. exists seen, [].
      split; [ reflexivity | ]. split; [ exact Ef | ].
      destruct Hsel as [ (-> & -> & Hall) | (b & a & -> & Hs & Hp & Hb & Ha) ].
      * split; [ exact Elt | ]. split; [ | intros f' s' [] ].
        intros f' s' Hin Hf'. eapply Qle_lt_trans; [ | exact Elt ].
        eapply Hall; eassumption.
      * split; [ eapply Qlt_trans; eassumption | ].
        split; [ | intros f' s' [] ].
        intros f' s' Hin Hf'. apply in_app_or in Hin as [ Hin | [ E | Hin ] ].
        -- eapply Qlt_trans; [ eapply Hb; eassumption | exact Elt ].
        -- injection E as <- <-. exact Elt.
        -- eapply Qle_lt_trans; [ eapply Ha; eassumption | exact Elt ].
    + apply Qlt_bool_false in Elt.
      destruct Hsel as [ (-> & -> & Hall) | (b & a & -> & Hs & Hp & Hb & Ha) ].
      * left. repeat split; try reflexivity.
        intros f' s' Hin Hf'. apply in_app_or in Hin as [ Hin | [ E | [] ] ].
        -- eapply Hall; eassumption.
        -- injection E as _ <-. exact Elt.
      * right. exists b, (a ++ [(f, s)]).
        split; [ rewrite <- app_assoc; reflexivity | ].
        repeat split; auto.
        intros f' s' Hin Hf'. apply in_app_or in Hin as [ Hin | [ E | [] ] ].
        -- eapply Ha; eassumption.
        -- injection E as _ <-. exact Elt.
  - simpl.
    destruct Hsel as [ (-> & -> & Hall) | (b & a & -> & Hs & Hp & Hb & Ha) ].
    + left. repeat split; try reflexivity.
      intros f' s' Hin Hf'. apply in_app_or in Hin as [ Hin | [ E | [] ] ].
      * eapply Hall; eassumption.
      * injection E as <- _. congruence.
    + right. exists b, (a ++ [(f, s)]).
      split; [ rewrite <- app_assoc; reflexivity | ].
      repeat split; auto.
      intros f' s' Hin Hf'. apply in_app_or in Hin as [ Hin | [ E | [] ] ].
      * eapply Ha; eassumption.
      * injection E as <- _. congruence.
Qed.

Lemma latest_first_fold l seen acc :
  latest_first_inv seen acc ->
  latest_first_inv (seen ++ l) (fold_left latest_step l acc).
Proof.
  revert seen acc. induction l as [ | fs l IH ]; intros seen acc H; simpl.
  - now rewrite app_nil_r.
  - replace (seen ++ fs :: l) with ((seen ++ [fs]) ++ l)
      by (rewrite <- app_assoc; reflexivity).
    apply IH. apply latest_first_step. exact H.
Qed.

Lemma str_in_csv_nonempty f : str_in ".csv" f = true -> f <> "".
Proof. intros H E. subst f. discriminate. Qed.

(** X7. The selection loop returns [''] exactly when no file whose path
    contains ".csv" has a positive stamp; otherwise it returns the first
    file, in listing order, among the files whose path contains ".csv"
    that carry the largest stamp: every such file listed before it is
    strictly older, every such file listed after it is not newer. *)
Theorem X7_latest_loop_returns_first_of_the_newest files stamps :
  let latest := latest_loop files stamps in
  (latest = "" /\
   forall f s, In (f, s) (combine files stamps) ->
               str_in ".csv" f = true -> (s <= 0)%Q) \/
  (latest <> "" /\
   exists m before after,
     combine files stamps = before ++ (latest, m) :: after /\
     str_in ".csv" latest = true /\ (0 < m)%Q /\
     (forall f s, In (f, s) before -> str_in ".csv" f = true -> (s < m)%Q) /\
     (forall f s, In (f, s) after -> str_in ".csv" f = true -> (s <= m)%Q)).
Proof.
  unfold latest_loop.
  assert (H0 : latest_first_inv [] (0%Q, "")).
  { left. repeat split. intros f s []. }
  apply (latest_first_fold (combine files stamps)) in H0. simpl in H0.
  destruct (fold_left latest_step (combine files stamps) (0%Q, "")) as [m lf].
  destruct H0 as [ (H1 & H2 & H3) | (b & a & H1 & H2 & H3 & H4 & H5) ];
    simpl in *.
  - left. split; assumption.
  - right. split; [ apply str_in_csv_nonempty; exact H2 | ].
    exists m, b, a. repeat split; assumption.
Qed.

(** ** Ticks of the live loop *)

Lemma getmtimes_all_stamps S A (files : list (A * option Q)) (s : S) :
  getmtimes files s =
    (match all_stamps files with
     | Some ts => Ret ts
     | None => Raise OSError
     end, s).
Proof.
  induction files as [ | [f [ t | ]] rest IH ]; simpl; try reflexivity.
  unfold bind. rewrite IH. destruct (all_stamps rest); reflexivity.
Qed.

Lemma wp_getmtimes_all S A (files : list (A * option Q))
    (Q : outcome (list Q) -> S -> Prop) s :
  Q (match all_stamps files with
     | Some ts => Ret ts
     | None => Raise OSError
     end) s ->
  wp (getmtimes files) Q s.
Proof. unfold wp. rewrite getmtimes_all_stamps. exact (fun H => H). Qed.

Lemma length_pos_nonempty (f : string) :
  (0 <? Z.of_nat (String.length f)) = negb (String.eqb f "").
Proof. destruct f; reflexivity. Qed.


Lemma latest_loop_none files stamps :
  (forall f s, In (f, s) (combine files stamps) ->
               str_in ".csv" f = true -> (s <= 0)%Q) ->
  latest_loop files stamps = "".
Proof.
  intros H. destruct (latest_loop_spec files stamps) as [ [E _] | (m & Hin & Hs & Hp & _) ].
  - exact E.
  - exfalso. eapply Qlt_not_le; [ exact Hp | ]. eapply H; eassumption.
Qed.

Lemma heatmap_file_path_kept_refl s : heatmap_file_path_kept s s.
Proof. reflexivity. Qed.

Lemma heatmap_file_path_kept_trans a b c :
  heatmap_file_path_kept a b -> heatmap_file_path_kept b c ->
  heatmap_file_path_kept a c.
Proof. unfold heatmap_file_path_kept. congruence. Qed.

#[global] Hint Resolve heatmap_file_path_kept_refl
  heatmap_file_path_kept_trans : frames.

Lemma heatmap_updateData_keeps_file_path w xi yi zi nf :
  keeps heatmap_file_path_kept (Heatmap.updateData w xi yi zi nf).
Proof.
  frame_auto heatmap.
  all: unfold heatmap_file_path_kept; simpl; reflexivity.
Qed.

(** What a tick that found the file [f] does to the file name and to the
    path field. *)
Lemma heatmap_tick_found w st ts f :
  all_stamps (os_walk_Data w) = Some ts ->
  latest_loop (map fst (os_walk_Data w)) ts = f -> f <> "" ->
  let s' := snd (Heatmap.livePlotting w st) in
  Heatmap.filename s' = abspath w f /\
  (fst (Heatmap.livePlotting w st) = Ret tt ->
   Heatmap.file_path s' = abspath w f) /\
  (fst (Heatmap.livePlotting w st) <> Ret tt ->
   Heatmap.file_path s' = Heatmap.file_path st).
Proof.
  intros Hts Hf Hne.
  apply (wp_run_eq (fun o s' =>
    Heatmap.filename s' = abspath w f /\
    (o = Ret tt -> Heatmap.file_path s' = abspath w f) /\
    (o <> Ret tt -> Heatmap.file_path s' = Heatmap.file_path st))).
  unfold Heatmap.livePlotting, Heatmap.latest_file.
  wp_run. apply wp_getmtimes_all. rewrite Hts. wp_run. rewrite Hf.
  rewrite length_pos_nonempty.
  replace (String.eqb f "") with false
    by (symmetry; apply String.eqb_neq; exact Hne).
  simpl. wp_run. destruct (String.eqb _ _) eqn:E; wp_run; simpl.
  - apply String.eqb_eq in E.
    eapply wp_keeps with
      (R := fun s s' => heatmap_filename_kept s s' /\ heatmap_file_path_kept s s').
    + intros s. split;
        [ apply heatmap_updateData_keeps_filename
        | apply heatmap_updateData_keeps_file_path ].
    + intros o s' [Hk1 Hk2].
      unfold heatmap_filename_kept, heatmap_file_path_kept in *.
      destruct o as [ [] | e ]; wp_run; simpl.
      * repeat split; intros; congruence.
      * repeat split; intros; congruence.
  - eapply wp_keeps with
      (R := fun s s' => heatmap_filename_kept s s' /\ heatmap_file_path_kept s s').
    + intros s. split;
        [ apply heatmap_updateData_keeps_filename
        | apply heatmap_updateData_keeps_file_path ].
    + intros o s' [Hk1 Hk2].
      unfold heatmap_filename_kept, heatmap_file_path_kept in *.
      simpl in Hk1, Hk2.
      destruct o as [ [] | e ]; wp_run; simpl.
      * repeat split; intros; congruence.
      * repeat split; intros; congruence.
Qed.

Lemma heatmap_tick_nothing_found w st ts :
  all_stamps (os_walk_Data w) = Some ts ->
  latest_loop (map fst (os_walk_Data w)) ts = "" ->
  Heatmap.livePlotting w st = (Ret tt, st).
Proof.
  intros Hts Hf. apply wp_eq.
  unfold Heatmap.livePlotting, Heatmap.latest_file.
  wp_run. apply wp_getmtimes_all. rewrite Hts. wp_run. rewrite Hf.
  reflexivity.
Qed.

Lemma heatmap_tick_unreadable_stamp w st :
  all_stamps (os_walk_Data w) = None ->
  Heatmap.livePlotting w st = (Raise OSError, st).
Proof.
  intros Hts. apply wp_eq.
  unfold Heatmap.livePlotting, Heatmap.latest_file.
  wp_run. apply wp_getmtimes_all. rewrite Hts. reflexivity.
Qed.

Lemma heatmap_second_tick_keeps_selectors w parse st :
  let s' := snd (Heatmap.livePlotting w st) in
  heatmap_selectors_kept s' (snd (Heatmap.livePlotting (same_folder w parse) s')).
Proof.
  intros s'. set (w2 := same_folder w parse).
  assert (Hw : os_walk_Data w2 = os_walk_Data w) by reflexivity.
  apply heatmap_livePlotting_same_file_keeps_selectors.
  destruct (all_stamps (os_walk_Data w)) as [ ts | ] eqn:Hts.
  - destruct (string_dec (latest_loop (map fst (os_walk_Data w)) ts) "")
      as [ E | E ].
    + rewrite (@heatmap_tick_nothing_found w2 s' ts); [ reflexivity | | ];
        rewrite Hw; assumption.
    + destruct (@heatmap_tick_found w st ts _ Hts eq_refl E) as [H1 _].
      destruct (@heatmap_tick_found w2 s' ts _
                  (eq_trans (f_equal all_stamps Hw) Hts)
                  (f_equal (fun l => latest_loop (map fst l) ts) Hw) E)
        as [H2 _].
      fold s' in H1. rewrite H2, H1. reflexivity.
  - rewrite (@heatmap_tick_unreadable_stamp w2 s'); [ reflexivity | ].
    rewrite Hw. exact Hts.
Qed.

Lemma dual_file_path_kept_refl s : dual_file_path_kept s s.
Proof. reflexivity. Qed.

Lemma dual_file_path_kept_trans a b c :
  dual_file_path_kept a b -> dual_file_path_kept b c ->
  dual_file_path_kept a c.
Proof. unfold dual_file_path_kept. congruence. Qed.

#[global] Hint Resolve dual_file_path_kept_refl
  dual_file_path_kept_trans : frames.

Lemma dual_updateData_keeps_file_path w xi yi yi2 nf :
  keeps dual_file_path_kept (Dual.updateData w xi yi yi2 nf).
Proof.
  frame_auto dual.
  all: unfold dual_file_path_kept; simpl; reflexivity.
Qed.

(** What a tick that found the file [f] does to the file name and to the
    path field. *)
Lemma dual_tick_found w st ts f :
  all_stamps (os_walk_Data w) = Some ts ->
  latest_loop (map fst (os_walk_Data w)) ts = f -> f <> "" ->
  let s' := snd (Dual.livePlotting w st) in
  Dual.filename s' = abspath w f /\
  (fst (Dual.livePlotting w st) = Ret tt ->
   Dual.file_path s' = abspath w f) /\
  (fst (Dual.livePlotting w st) <> Ret tt ->
   Dual.file_path s' = Dual.file_path st).
Proof.
  intros Hts Hf Hne.
  apply (wp_run_eq (fun o s' =>
    Dual.filename s' = abspath w f /\
    (o = Ret tt -> Dual.file_path s' = abspath w f) /\
    (o <> Ret tt -> Dual.file_path s' = Dual.file_path st))).
  unfold Dual.livePlotting, Dual.latest_file.
  wp_run. apply wp_getmtimes_all. rewrite Hts. wp_run. rewrite Hf.
  rewrite length_pos_nonempty.
  replace (String.eqb f "") with false
    by (symmetry; apply String.eqb_neq; exact Hne).
  simpl. wp_run. destruct (String.eqb _ _) eqn:E; wp_run; simpl.
  - apply String.eqb_eq in E.
    eapply wp_keeps with
      (R := fun s s' => dual_filename_kept s s' /\ dual_file_path_kept s s').
    + intros s. split;
        [ apply dual_updateData_keeps_filename
        | apply dual_updateData_keeps_file_path ].
    + intros o s' [Hk1 Hk2].
      unfold dual_filename_kept, dual_file_path_kept in *.
      destruct o as [ [] | e ]; wp_run; simpl.
      * repeat split; intros; congruence.
      * repeat split; intros; congruence.
  - eapply wp_keeps with
      (R := fun s s' => dual_filename_kept s s' /\ dual_file_path_kept s s').
    + intros s. split;
        [ apply dual_updateData_keeps_filename
        | apply dual_updateData_keeps_file_path ].
    + intros o s' [Hk1 Hk2].
      unfold dual_filename_kept, dual_file_path_kept in *.
      simpl in Hk1, Hk2.
      destruct o as [ [] | e ]; wp_run; simpl.
      * repeat split; intros; congruence.
      * repeat split; intros; congruence.
Qed.

Lemma dual_tick_nothing_found w st ts :
  all_stamps (os_walk_Data w) = Some ts ->
  latest_loop (map fst (os_walk_Data w)) ts = "" ->
  Dual.livePlotting w st = (Ret tt, st).
Proof.
  intros Hts Hf. apply wp_eq.
  unfold Dual.livePlotting, Dual.latest_file.
  wp_run. apply wp_getmtimes_all. rewrite Hts. wp_run. rewrite Hf.
  reflexivity.
Qed.

Lemma dual_tick_unreadable_stamp w st :
  all_stamps (os_walk_Data w) = None ->
  Dual.livePlotting w st = (Raise OSError, st).
Proof.
  intros Hts. apply wp_eq.
  unfold Dual.livePlotting, Dual.latest_file.
  wp_run. apply wp_getmtimes_all. rewrite Hts. reflexivity.
Qed.

Lemma dual_second_tick_keeps_selectors w parse st :
  let s' := snd (Dual.livePlotting w st) in
  dual_selectors_kept s' (snd (Dual.livePlotting (same_folder w parse) s')).
Proof.
  intros s'. set (w2 := same_folder w parse).
  assert (Hw : os_walk_Data w2 = os_walk_Data w) by reflexivity.
  apply dual_livePlotting_same_file_keeps_selectors.
  destruct (all_stamps (os_walk_Data w)) as [ ts | ] eqn:Hts.
  - destruct (string_dec (latest_loop (map fst (os_walk_Data w)) ts) "")
      as [ E | E ].
    + rewrite (@dual_tick_nothing_found w2 s' ts); [ reflexivity | | ];
        rewrite Hw; assumption.
    + destruct (@dual_tick_found w st ts _ Hts eq_refl E) as [H1 _].
      destruct (@dual_tick_found w2 s' ts _
                  (eq_trans (f_equal all_stamps Hw) Hts)
                  (f_equal (fun l => latest_loop (map fst l) ts) Hw) E)
        as [H2 _].
      fold s' in H1. rewrite H2, H1. reflexivity.
  - rewrite (@dual_tick_unreadable_stamp w2 s'); [ reflexivity | ].
    rewrite Hw. exact Hts.
Qed.

Lemma single_tick_nothing_found w st es ts :
  Data w = Some es ->
  all_stamps (map (fun e => (entry_name e, entry_mtime e)) es) = Some ts ->
  latest_loop (map entry_name es) ts = "" ->
  Single.livePlotting w st = (Ret tt, st).
Proof.
  intros Hd Hts Hf. apply wp_eq.
  unfold Single.livePlotting, Single.latest_file, os_listdir_Data.
  rewrite Hd. wp_run. apply wp_getmtimes_all. rewrite Hts. wp_run.
  replace (map fst (map (fun e => (entry_name e, entry_mtime e)) es))
    with (map entry_name es) by (rewrite map_map; reflexivity).
  rewrite Hf. reflexivity.
Qed.


(** ** The check box, the timer and the file dialog *)

Lemma wp_of_run S A (Q : outcome A -> S -> Prop) s (m : M S A) :
  Q (fst (m s)) (snd (m s)) -> wp m Q s.
Proof. unfold wp. destruct (m s). exact (fun H => H). Qed.

Lemma heatmap_live_kept_refl s : heatmap_live_kept s s.
Proof. split; reflexivity. Qed.

Lemma heatmap_live_kept_trans a b c :
  heatmap_live_kept a b -> heatmap_live_kept b c -> heatmap_live_kept a c.
Proof. unfold heatmap_live_kept. intros [] []. split; congruence. Qed.

#[global] Hint Resolve heatmap_live_kept_refl heatmap_live_kept_trans : frames.

Lemma heatmap_updateData_keeps_live w xi yi zi nf :
  keeps heatmap_live_kept (Heatmap.updateData w xi yi zi nf).
Proof.
  frame_auto heatmap.
  all: unfold heatmap_live_kept; simpl; split; reflexivity.
Qed.

Lemma heatmap_livePlotting_keeps_live w :
  keeps heatmap_live_kept (Heatmap.livePlotting w).
Proof.
  unfold Heatmap.livePlotting, Heatmap.latest_file.
  repeat frame_step; eauto with frames.
  all: first [ apply heatmap_updateData_keeps_live
             | intros s; rewrite getmtimes_state; apply heatmap_live_kept_refl
             | unfold heatmap_live_kept; simpl; split; reflexivity ].
Qed.

Lemma heatmap_live_kept_consistent s s' :
  heatmap_live_kept s s' -> heatmap_live_consistent s ->
  heatmap_live_consistent s'.
Proof.
  unfold heatmap_live_kept, heatmap_live_consistent.
  intros [E1 E2]. rewrite E1, E2. exact (fun H => H).
Qed.

(** Setting the box on a consistent window never raises and leaves the
    box on the value asked for, with the timer running exactly when the
    box is checked. *)
Lemma heatmap_setChecked_consistent b st :
  heatmap_live_consistent st ->
  let s' := snd (Heatmap.livePlot_setChecked b st) in
  fst (Heatmap.livePlot_setChecked b st) = Ret tt /\
  Heatmap.livePlot s' = b /\ heatmap_live_consistent s' /\
  s' = (if Bool.eqb (Heatmap.livePlot st) b then st
        else Heatmap.set_timer (Some b) (Heatmap.set_livePlot b st)).
Proof.
  intros [H1 H2].
  apply (wp_run_eq (fun o s' => o = Ret tt /\ Heatmap.livePlot s' = b /\
           heatmap_live_consistent s' /\ s' = _)).
  unfold heatmap_live_consistent, Heatmap.livePlot_setChecked,
    Heatmap.livePlotToggle.
  wp_run. destruct (Heatmap.livePlot st) eqn:El, b; simpl; wp_run; simpl.
  - repeat split; auto.
  - rewrite (H1 eq_refl). wp_run. simpl.
    repeat split; try reflexivity; try discriminate.
  - wp_run. simpl. repeat split; try reflexivity; try discriminate.
  - repeat split; auto.
Qed.

Lemma heatmap_openFileNameDialog_stops_live w f st :
  heatmap_live_consistent st ->
  let s' := snd (Heatmap.openFileNameDialog w f st) in
  Heatmap.livePlot s' = false /\ Heatmap.timer s' <> Some true /\
  heatmap_live_consistent s'.
Proof.
  intros Hc.
  apply (wp_run_eq (fun _ s' => Heatmap.livePlot s' = false /\
           Heatmap.timer s' <> Some true /\ heatmap_live_consistent s')).
  unfold Heatmap.openFileNameDialog. wp_run. apply wp_of_run.
  destruct (heatmap_setChecked_consistent false Hc) as (H1 & H2 & [H3 H4] & _).
  rewrite H1.
  assert (Hgoal : forall s,
            heatmap_live_kept (snd (Heatmap.livePlot_setChecked false st)) s ->
            Heatmap.livePlot s = false /\ Heatmap.timer s <> Some true /\
            heatmap_live_consistent s).
  { intros s [E1 E2]. unfold heatmap_live_consistent.
    rewrite E1, E2, H2. repeat split; auto; try discriminate. }
  destruct (negb (String.eqb f "")); wp_run;
    [ | apply Hgoal; apply heatmap_live_kept_refl ].
  simpl. eapply wp_keeps; [ apply heatmap_updateData_keeps_live | ].
  intros o s'' [E1 E2]. simpl in E1, E2.
  destruct o; wp_run; apply Hgoal; split; simpl; assumption.
Qed.

Lemma heatmap_openFileNameDialog_cancelled w st :
  heatmap_live_consistent st ->
  Heatmap.openFileNameDialog w "" st =
    (Ret tt,
     if Heatmap.livePlot st
     then Heatmap.set_timer (Some false) (Heatmap.set_livePlot false st)
     else st).
Proof.
  intros Hc. apply wp_eq.
  unfold Heatmap.openFileNameDialog. wp_run. apply wp_of_run.
  destruct (heatmap_setChecked_consistent false Hc) as (H1 & _ & _ & H4).
  rewrite H1, H4. simpl. wp_run.
  destruct (Heatmap.livePlot st); reflexivity.
Qed.

Lemma heatmap_openFileNameDialog_file w f st :
  heatmap_live_consistent st -> f <> "" ->
  let s' := snd (Heatmap.openFileNameDialog w f st) in
  Heatmap.filename s' = f /\
  (fst (Heatmap.openFileNameDialog w f st) = Ret tt ->
   Heatmap.file_path s' = f) /\
  (fst (Heatmap.openFileNameDialog w f st) <> Ret tt ->
   Heatmap.file_path s' = Heatmap.file_path st).
Proof.
  intros Hc Hf.
  apply (wp_run_eq (fun o s' => Heatmap.filename s' = f /\
           (o = Ret tt -> Heatmap.file_path s' = f) /\
           (o <> Ret tt -> Heatmap.file_path s' = Heatmap.file_path st))).
  unfold Heatmap.openFileNameDialog. wp_run. apply wp_of_run.
  destruct (heatmap_setChecked_consistent false Hc) as (H1 & _ & _ & H4).
  rewrite H1, H4.
  replace (String.eqb f "") with false
    by (symmetry; apply String.eqb_neq; exact Hf).
  simpl. wp_run.
  eapply wp_keeps with
    (R := fun s s' => heatmap_filename_kept s s' /\ heatmap_file_path_kept s s').
  - intros s. split;
      [ apply heatmap_updateData_keeps_filename
      | apply heatmap_updateData_keeps_file_path ].
  - intros o s' [Hk1 Hk2].
    unfold heatmap_filename_kept, heatmap_file_path_kept in *.
    destruct (Heatmap.livePlot st); simpl in Hk1, Hk2;
      (destruct o as [ [] | e ]; wp_run; simpl;
       repeat split; intros; congruence).
Qed.

Lemma dual_live_kept_refl s : dual_live_kept s s.
Proof. split; reflexivity. Qed.

Lemma dual_live_kept_trans a b c :
  dual_live_kept a b -> dual_live_kept b c -> dual_live_kept a c.
Proof. unfold dual_live_kept. intros [] []. split; congruence. Qed.

#[global] Hint Resolve dual_live_kept_refl dual_live_kept_trans : frames.

Lemma dual_updateData_keeps_live w xi yi yi2 nf :
  keeps dual_live_kept (Dual.updateData w xi yi yi2 nf).
Proof.
  frame_auto dual.
  all: unfold dual_live_kept; simpl; split; reflexivity.
Qed.

Lemma dual_livePlotting_keeps_live w :
  keeps dual_live_kept (Dual.livePlotting w).
Proof.
  unfold Dual.livePlotting, Dual.latest_file.
  repeat frame_step; eauto with frames.
  all: first [ apply dual_updateData_keeps_live
             | intros s; rewrite getmtimes_state; apply dual_live_kept_refl
             | unfold dual_live_kept; simpl; split; reflexivity ].
Qed.

Lemma dual_live_kept_consistent s s' :
  dual_live_kept s s' -> dual_live_consistent s ->
  dual_live_consistent s'.
Proof.
  unfold dual_live_kept, dual_live_consistent.
  intros [E1 E2]. rewrite E1, E2. exact (fun H => H).
Qed.

(** Setting the box on a consistent window never raises and leaves the
    box on the value asked for, with the timer running exactly when the
    box is checked. *)
Lemma dual_setChecked_consistent b st :
  dual_live_consistent st ->
  let s' := snd (Dual.livePlot_setChecked b st) in
  fst (Dual.livePlot_setChecked b st) = Ret tt /\
  Dual.livePlot s' = b /\ dual_live_consistent s' /\
  s' = (if Bool.eqb (Dual.livePlot st) b then st
        else Dual.set_timer (Some b) (Dual.set_livePlot b st)).
Proof.
  intros [H1 H2].
  apply (wp_run_eq (fun o s' => o = Ret tt /\ Dual.livePlot s' = b /\
           dual_live_consistent s' /\ s' = _)).
  unfold dual_live_consistent, Dual.livePlot_setChecked,
    Dual.livePlotToggle.
  wp_run. destruct (Dual.livePlot st) eqn:El, b; simpl; wp_run; simpl.
  - repeat split; auto.
  - rewrite (H1 eq_refl). wp_run. simpl.
    repeat split; try reflexivity; try discriminate.
  - wp_run. simpl. repeat split; try reflexivity; try discriminate.
  - repeat split; auto.
Qed.

Lemma dual_openFileNameDialog_stops_live w f st :
  dual_live_consistent st ->
  let s' := snd (Dual.openFileNameDialog w f st) in
  Dual.livePlot s' = false /\ Dual.timer s' <> Some true /\
  dual_live_consistent s'.
Proof.
  intros Hc.
  apply (wp_run_eq (fun _ s' => Dual.livePlot s' = false /\
           Dual.timer s' <> Some true /\ dual_live_consistent s')).
  unfold Dual.openFileNameDialog. wp_run. apply wp_of_run.
  destruct (dual_setChecked_consistent false Hc) as (H1 & H2 & [H3 H4] & _).
  rewrite H1.
  assert (Hgoal : forall s,
            dual_live_kept (snd (Dual.livePlot_setChecked false st)) s ->
            Dual.livePlot s = false /\ Dual.timer s <> Some true /\
            dual_live_consistent s).
  { intros s [E1 E2]. unfold dual_live_consistent.
    rewrite E1, E2, H2. repeat split; auto; try discriminate. }
  destruct (negb (String.eqb f "")); wp_run;
    [ | apply Hgoal; apply dual_live_kept_refl ].
  simpl. eapply wp_keeps; [ apply dual_updateData_keeps_live | ].
  intros o s'' [E1 E2]. simpl in E1, E2.
  destruct o; wp_run; apply Hgoal; split; simpl; assumption.
Qed.

Lemma dual_openFileNameDialog_cancelled w st :
  dual_live_consistent st ->
  Dual.openFileNameDialog w "" st =
    (Ret tt,
     if Dual.livePlot st
     then Dual.set_timer (Some false) (Dual.set_livePlot false st)
     else st).
Proof.
  intros Hc. apply wp_eq.
  unfold Dual.openFileNameDialog. wp_run. apply wp_of_run.
  destruct (dual_setChecked_consistent false Hc) as (H1 & _ & _ & H4).
  rewrite H1, H4. simpl. wp_run.
  destruct (Dual.livePlot st); reflexivity.
Qed.

Lemma dual_openFileNameDialog_file w f st :
  dual_live_consistent st -> f <> "" ->
  let s' := snd (Dual.openFileNameDialog w f st) in
  Dual.filename s' = f /\
  (fst (Dual.openFileNameDialog w f st) = Ret tt ->
   Dual.file_path s' = f) /\
  (fst (Dual.openFileNameDialog w f st) <> Ret tt ->
   Dual.file_path s' = Dual.file_path st).
Proof.
  intros Hc Hf.
  apply (wp_run_eq (fun o s' => Dual.filename s' = f /\
           (o = Ret tt -> Dual.file_path s' = f) /\
           (o <> Ret tt -> Dual.file_path s' = Dual.file_path st))).
  unfold Dual.openFileNameDialog. wp_run. apply wp_of_run.
  destruct (dual_setChecked_consistent false Hc) as (H1 & _ & _ & H4).
  rewrite H1, H4.
  replace (String.eqb f "") with false
    by (symmetry; apply String.eqb_neq; exact Hf).
  simpl. wp_run.
  eapply wp_keeps with
    (R := fun s s' => dual_filename_kept s s' /\ dual_file_path_kept s s').
  - intros s. split;
      [ apply dual_updateData_keeps_filename
      | apply dual_updateData_keeps_file_path ].
  - intros o s' [Hk1 Hk2].
    unfold dual_filename_kept, dual_file_path_kept in *.
    destruct (Dual.livePlot st); simpl in Hk1, Hk2;
      (destruct o as [ [] | e ]; wp_run; simpl;
       repeat split; intros; congruence).
Qed.

Lemma dual_handler_keeps_live w i :
  keeps dual_live_kept (Dual.xboxindex w i) /\
  keeps dual_live_kept (Dual.yboxindex w i) /\
  keeps dual_live_kept (Dual.ybox2index w i).
Proof.
  split; [ | split ].
  all: unfold Dual.xboxindex, Dual.yboxindex, Dual.ybox2index, Dual.emit.
  all: repeat frame_step; eauto with frames.
  all: first [ apply dual_updateData_keeps_live
             | unfold dual_live_kept; simpl; split; reflexivity ].
Qed.

Lemma dual_changeLivePlot_consistent st :
  dual_live_consistent st ->
  let s' := snd (Dual.changeLivePlot st) in
  fst (Dual.changeLivePlot st) = Ret tt /\
  Dual.livePlot s' = negb (Dual.livePlot st) /\
  Dual.timer s' = Some (negb (Dual.livePlot st)) /\
  dual_live_consistent s'.
Proof.
  intros Hc.
  apply (wp_run_eq (fun o s' => o = Ret tt /\
           Dual.livePlot s' = negb (Dual.livePlot st) /\
           Dual.timer s' = Some (negb (Dual.livePlot st)) /\
           dual_live_consistent s')).
  unfold Dual.changeLivePlot. wp_run.
  destruct (Dual.livePlot st) eqn:El; apply wp_of_run.
  - destruct (dual_setChecked_consistent false Hc) as (H1 & H2 & H3 & H4).
    rewrite El in H4. simpl in H4.
    split; [ exact H1 | ]. split; [ exact H2 | ].
    split; [ rewrite H4; reflexivity | exact H3 ].
  - destruct (dual_setChecked_consistent true Hc) as (H1 & H2 & H3 & H4).
    rewrite El in H4. simpl in H4.
    split; [ exact H1 | ]. split; [ exact H2 | ].
    split; [ rewrite H4; reflexivity | exact H3 ].
Qed.


(** ** The value box of the heatmap window *)

(** X1. In the heatmap window, on a parsed file whose series all have the
    same length, choosing in the value box a variable other than "<none>"
    shows the image whenever the fast-axis column (x, or y when the swap
    box is checked) changes value at least once: with [L] the sweep
    length, the handler returns normally, remembers the chosen index,
    switches to the image widget and sets the image made of the whole
    sweeps of the value column (transposed when swapped), one rectangle
    and the colour levels, before it labels the axes.  The two levels are
    values of the image and bound every value of it. *)
Theorem X1_value_box_shows_image_of_whole_sweeps w st i d sx sy sz vn nx ny L :
  parse_data w (Heatmap.filename st) = Ret d ->
  equal_lengths d ->
  Heatmap.var_names st = Some vn ->
  i <> -1 -> i <> len vn - 1 ->
  py_index d (Heatmap.xindex st) = Some sx ->
  py_index d (Heatmap.yindex st) = Some sy ->
  py_index d i = Some sz ->
  py_index vn (Heatmap.xindex st) = Some nx ->
  py_index vn (Heatmap.yindex st) = Some ny ->
  sweep_length (if Heatmap.slowbox st then data sy else data sx) = Ret L ->
  0 < L ->
  let n := len (data sz) / L in
  let g := blocks (Z.to_nat n) (Z.to_nat L) (slice_to (data sz) (L * n)) in
  let img := if Heatmap.slowbox st then transpose L g else g in
  let s' := snd (Heatmap.zboxindex w i st) in
  exists rx ry rw rh lo hi,
    fst (Heatmap.zboxindex w i st) = Ret tt /\
    Heatmap.zindex s' = i /\
    Heatmap.graphs s' = imageWidget /\
    Heatmap.z s' = Some (Arr2 img) /\
    Heatmap.calls s' =
      Heatmap.calls st ++
        [setCurrentWidget imageWidget; setImage img; setRect rx ry rw rh;
         setLevels lo hi;
         setLabel graphWidget "bottom" nx; setLabel graphWidget "left" ny;
         setLabel imageWidget "bottom" nx; setLabel imageWidget "left" ny] /\
    In lo (List.concat img) /\ In hi (List.concat img) /\
    forall v, In v (List.concat img) -> (lo <= v <= hi)%Q.
Proof.
  intros Hp Heq Hv Hi1 Hi2 Hx Hy Hz Hnx Hny HL H0 n g img s'.
  destruct (@heatmap_updateData_image w (Heatmap.set_zindex i st)
              (Heatmap.xindex st) (Heatmap.yindex st) i d sx sy sz vn nx ny L
              Hp Heq Hx Hy Hz Hv Hi1 Hi2 Hnx Hny HL H0)
    as (rx & ry & rw & rh & lo & hi & H1 & H2 & _ & _ & H5 & H6 & H7 & H8).
  exists rx, ry, rw, rh, lo, hi. subst s'.
  apply (wp_run_eq (fun o s' => o = Ret tt /\ Heatmap.zindex s' = i /\
           Heatmap.graphs s' = imageWidget /\ Heatmap.z s' = _ /\
           Heatmap.calls s' = _ /\ _)).
  unfold Heatmap.zboxindex, Heatmap.read_var_names.
  repeat (wp_run; simpl; rewrite ?Hv).
  replace (i =? len vn - 1) with false
    by (symmetry; apply Z.eqb_neq; exact Hi2).
  apply wp_of_run. repeat (split; [ assumption | ]). exact H8.
Qed.

Lemma X1_ten_records_witness :
  fst (Heatmap.zboxindex ten_records_world 2 ten_records_loaded) = Ret tt.
Proof.
  destruct (@X1_value_box_shows_image_of_whole_sweeps ten_records_world
              ten_records_loaded 2 _
              (mk_series "x" (samples [0; 0; 0; 1; 1; 1; 2; 2; 2; 3]))
              (mk_series "y" (samples [0; 1; 2; 0; 1; 2; 0; 1; 2; 0]))
              (mk_series "v" (samples [1; 2; 3; 4; 5; 6; 7; 8; 9; 10]))
              ["x"; "y"; "v"; "<none>"] "x" "y" 3
              eq_refl (parse_table_equal_lengths _ _) eq_refl)
    as (rx & ry & rw & rh & lo & hi & H & _);
    [ discriminate | discriminate | reflexivity | reflexivity | reflexivity
    | reflexivity | reflexivity | reflexivity | lia | exact H ].
Defined.

(** X2. In the heatmap window, with a variable other than "<none>" as
    value axis and non-empty x and value columns, a refresh raises
    OverflowError whenever the fast-axis column holds one value only, as
    it does during the first sweep of a measurement: the window has
    switched to the image widget and no image, rectangle or level has
    been set. *)
Theorem X2_constant_fast_axis_raises_OverflowError w st xi yi zi d sx sy sz vn
    a0 rest :
  parse_data w (Heatmap.filename st) = Ret d ->
  py_index d xi = Some sx -> py_index d yi = Some sy ->
  py_index d zi = Some sz ->
  data sx <> [] -> data sz <> [] ->
  Heatmap.var_names st = Some vn ->
  zi <> -1 -> zi <> len vn - 1 ->
  (if Heatmap.slowbox st then data sy else data sx) = a0 :: rest ->
  (forall v, In v rest -> (v == a0)%Q) ->
  let s' := snd (Heatmap.updateData w xi yi zi false st) in
  fst (Heatmap.updateData w xi yi zi false st) = Raise OverflowError /\
  Heatmap.graphs s' = imageWidget /\
  Heatmap.calls s' = Heatmap.calls st ++ [setCurrentWidget imageWidget].
Proof.
  intros Hp Hx Hy Hz Hnx Hnz Hv Hz1 Hz2 Hfast Hconst s'. subst s'.
  assert (HL : sweep_length (if Heatmap.slowbox st then data sy else data sx)
               = Ret 0)
    by (rewrite Hfast; apply sweep_length_constant; exact Hconst).
  rewrite (heatmap_updateData_constant_axis w st xi yi Hp Hx Hy Hz Hnx Hnz Hv
             Hz1 Hz2 HL).
  repeat split.
Qed.

Lemma X2_single_point_witness :
  fst (Heatmap.updateData single_point_world 0 1 2 false single_point_loaded)
    = Raise OverflowError.
Proof.
  refine (proj1 (@X2_constant_fast_axis_raises_OverflowError single_point_world
                   single_point_loaded 0 1 2 _
                   (mk_series "x" (samples [5])) (mk_series "y" (samples [1]))
                   (mk_series "v" (samples [7]))
                   ["x"; "y"; "v"; "<none>"] 5%Q []
                   eq_refl eq_refl eq_refl eq_refl _ _ eq_refl _ _ eq_refl _));
    try discriminate.
  intros v [].
Defined.

Lemma X3_sweep_001_witness :
  Single.calls (snd (Single.updateData sweep_001_world 0 1 true Single.init)) =
    Single.calls Single.init ++
      [setData data_line (samples [0; 0; 1]) (samples [1; 3; 5]);
       setLabel graphWidget "bottom" "V1"; setLabel graphWidget "left" "V2"].
Proof.
  refine (proj2 (proj2 (proj2 (proj2
    (@X3_single_window_plots_x_against_y sweep_001_world Single.init 0 1 true
       _ (mk_series "V1" (samples [0; 0; 1])) (mk_series "V2" (samples [1; 3; 5]))
       ["V1"; "V2"; "V3"] "V1" "V2"
       eq_refl eq_refl _ eq_refl eq_refl eq_refl eq_refl))))).
  discriminate.
Defined.

Lemma X4_sweep_001_witness :
  fst (Dual.updateData sweep_001_world 0 1 2 true Dual.init) = Ret tt.
Proof.
  refine (proj1
    (@X4_dual_window_plots_two_lines_on_one_x sweep_001_world Dual.init 0 1 2
       true _ (mk_series "V1" (samples [0; 0; 1]))
       (mk_series "V2" (samples [1; 3; 5])) (mk_series "V3" (samples [2; 4; 6]))
       ["V1"; "V2"; "V3"] "V1" "V2" "V3"
       eq_refl eq_refl _ eq_refl eq_refl eq_refl eq_refl eq_refl eq_refl)).
  discriminate.
Defined.

Lemma X5_locked_file_witness :
  Heatmap.updateData failing_parse_world 0 1 (-1) true Heatmap.init
    = (Raise OSError, Heatmap.init).
Proof.
  exact (proj1 (X5_failing_parse_leaves_window_untouched failing_parse_world
                  OSError) Heatmap.init 0 1 (-1) true eq_refl).
Defined.

Lemma X6_two_columns_witness :
  fst (Heatmap.updateData two_column_world 2 1 (-1) false Heatmap.init)
    = Raise IndexError.
Proof.
  pose proof (proj1 (X6_x_index_out_of_range_raises_IndexError two_column_world
                       (parse_table ["x"; "y"] [samples [0; 1]; samples [0; 3]]))
                Heatmap.init 2 1 (-1) eq_refl eq_refl) as H.
  exact (f_equal fst H).
Defined.


(** ** Ticks of the live loop: the statements *)

(** X8. A tick changes nothing and returns normally when all stamps of
    the folder can be read and no file whose name contains ".csv" has a
    positive stamp, in the three windows: a folder without data files, and
    also a data file stamped 0 or earlier, is treated as "no file". *)
Theorem X8_tick_without_candidate_changes_nothing w :
  (forall st ts,
     all_stamps (os_walk_Data w) = Some ts ->
     (forall f s, In (f, s) (combine (map fst (os_walk_Data w)) ts) ->
                  str_in ".csv" f = true -> (s <= 0)%Q) ->
     Heatmap.livePlotting w st = (Ret tt, st)) /\
  (forall st ts,
     all_stamps (os_walk_Data w) = Some ts ->
     (forall f s, In (f, s) (combine (map fst (os_walk_Data w)) ts) ->
                  str_in ".csv" f = true -> (s <= 0)%Q) ->
     Dual.livePlotting w st = (Ret tt, st)) /\
  (forall st es ts,
     Data w = Some es ->
     all_stamps (map (fun e => (entry_name e, entry_mtime e)) es) = Some ts ->
     (forall f s, In (f, s) (combine (map entry_name es) ts) ->
                  str_in ".csv" f = true -> (s <= 0)%Q) ->
     Single.livePlotting w st = (Ret tt, st)).
Proof.
  split; [ | split ].
  - intros st ts Hts H. eapply heatmap_tick_nothing_found; [ exact Hts | ].
    apply latest_loop_none. exact H.
  - intros st ts Hts H. eapply dual_tick_nothing_found; [ exact Hts | ].
    apply latest_loop_none. exact H.
  - intros st es ts Hd Hts H.
    eapply single_tick_nothing_found; [ exact Hd | exact Hts | ].
    apply latest_loop_none. exact H.
Qed.

Lemma X8_epoch_stamp_witness :
  Heatmap.livePlotting epoch_stamp_world Heatmap.init = (Ret tt, Heatmap.init).
Proof.
  refine (proj1 (X8_tick_without_candidate_changes_nothing epoch_stamp_world)
            Heatmap.init [5%Q; 0%Q] eq_refl _).
  intros f s [ E | [ E | [] ] ]; injection E as <- <-; intros H.
  - discriminate H.
  - apply Qle_refl.
Defined.

(** X9. In the heatmap and in the dual-trace window, whatever the first
    tick did, a second tick on the same folder listing never rebuilds the
    selectors, also when the contents of the files have changed and also
    when the load of the first tick raised: the first tick has stored the
    name of the file it found before loading it, so the second tick takes
    the refresh path. *)
Theorem X9_second_tick_on_the_same_folder_only_refreshes :
  (forall w parse st,
     let s' := snd (Heatmap.livePlotting w st) in
     heatmap_selectors_kept s'
       (snd (Heatmap.livePlotting (same_folder w parse) s'))) /\
  (forall w parse st,
     let s' := snd (Dual.livePlotting w st) in
     dual_selectors_kept s'
       (snd (Dual.livePlotting (same_folder w parse) s'))).
Proof.
  split; intros.
  - apply heatmap_second_tick_keeps_selectors.
  - apply dual_second_tick_keeps_selectors.
Qed.

(** X10. In the heatmap and in the dual-trace window, after a tick that
    found the file [f], [self.filename] is the absolute path of [f]
    whether the tick returned or raised; the path field shows that path
    when the tick returned normally and keeps its old text when the tick
    raised. *)
Theorem X10_tick_stores_the_found_file :
  (forall w st ts f,
     all_stamps (os_walk_Data w) = Some ts ->
     latest_loop (map fst (os_walk_Data w)) ts = f -> f <> "" ->
     let s' := snd (Heatmap.livePlotting w st) in
     Heatmap.filename s' = abspath w f /\
     (fst (Heatmap.livePlotting w st) = Ret tt ->
      Heatmap.file_path s' = abspath w f) /\
     (fst (Heatmap.livePlotting w st) <> Ret tt ->
      Heatmap.file_path s' = Heatmap.file_path st)) /\
  (forall w st ts f,
     all_stamps (os_walk_Data w) = Some ts ->
     latest_loop (map fst (os_walk_Data w)) ts = f -> f <> "" ->
     let s' := snd (Dual.livePlotting w st) in
     Dual.filename s' = abspath w f /\
     (fst (Dual.livePlotting w st) = Ret tt ->
      Dual.file_path s' = abspath w f) /\
     (fst (Dual.livePlotting w st) <> Ret tt ->
      Dual.file_path s' = Dual.file_path st)).
Proof.
  split; intros w st ts f Hts Hf Hne.
  - exact (heatmap_tick_found w st Hts Hf Hne).
  - exact (dual_tick_found w st Hts Hf Hne).
Qed.

Lemma X10_two_columns_witness :
  Heatmap.filename
    (snd (Heatmap.livePlotting two_column_world third_variable_chosen))
    = "/home/qtm/Data/narrow.csv".
Proof.
  refine (proj1 (proj1 X10_tick_stores_the_found_file two_column_world
                   third_variable_chosen [2%Q] "Data/narrow.csv"
                   eq_refl eq_refl _)).
  discriminate.
Defined.

(** ** The check box, the timer and the file dialog: the statements *)

Lemma dual_handle_consistent ev s :
  dual_live_consistent s -> dual_live_consistent (snd (dual_handle ev s)).
Proof.
  intros Hc. destruct ev as [ w | w i | w i | w i | | w f ]; simpl.
  - unfold bind, gets. simpl.
    destruct (Dual.timer s) as [ [ | ] | ]; try exact Hc.
    eapply dual_live_kept_consistent; [ apply dual_livePlotting_keeps_live | exact Hc ].
  - eapply dual_live_kept_consistent;
      [ apply (proj1 (dual_handler_keeps_live w i)) | exact Hc ].
  - eapply dual_live_kept_consistent;
      [ apply (proj1 (proj2 (dual_handler_keeps_live w i))) | exact Hc ].
  - eapply dual_live_kept_consistent;
      [ apply (proj2 (proj2 (dual_handler_keeps_live w i))) | exact Hc ].
  - apply dual_changeLivePlot_consistent. exact Hc.
  - apply dual_openFileNameDialog_stops_live. exact Hc.
Qed.

Lemma dual_run_consistent evs s :
  dual_live_consistent s -> dual_live_consistent (dual_run evs s).
Proof.
  revert s. induction evs as [ | ev evs IH ]; intros s Hc; simpl.
  - exact Hc.
  - apply IH. apply dual_handle_consistent. exact Hc.
Qed.

Lemma dual_init_consistent : dual_live_consistent Dual.init.
Proof. split; simpl; intros; discriminate. Qed.

(** X11. In the dual-trace window, after any sequence of timer ticks, box
    choices, flips of the live-plot box and file dialogs from the initial
    window, the box and the timer agree: the timer runs exactly when the
    box is checked.  Hence flipping the box never raises (the slot never
    stops a timer that was not created): it returns normally, inverts the
    box, and the timer runs afterwards exactly when the box was unchecked
    before. *)
Theorem X11_live_plot_box_and_timer_agree evs :
  let s := dual_run evs Dual.init in
  dual_live_consistent s /\
  fst (Dual.changeLivePlot s) = Ret tt /\
  Dual.livePlot (snd (Dual.changeLivePlot s)) = negb (Dual.livePlot s) /\
  Dual.timer (snd (Dual.changeLivePlot s)) = Some (negb (Dual.livePlot s)).
Proof.
  intros s.
  assert (Hc : dual_live_consistent s)
    by (apply dual_run_consistent; apply dual_init_consistent).
  destruct (dual_changeLivePlot_consistent Hc) as (H1 & H2 & H3 & _).
  repeat split; try assumption; apply Hc.
Qed.

(** X12. Opening the file dialog on a window whose box and timer agree
    always leaves the live-plot box unchecked and the timer not running,
    in the heatmap and in the dual-trace window, whether the load
    succeeds, raises or the dialog is cancelled.  A cancelled dialog
    changes nothing else: the window is the one of before when the box
    was unchecked, and the one of before with the box unchecked and the
    timer stopped otherwise.  With a file name, [self.filename] is that
    name as the dialog gave it; the path field shows it when the load
    returned normally and keeps its old text when the load raised. *)
Theorem X12_file_dialog_stops_live_plotting :
  (forall w f st,
     heatmap_live_consistent st ->
     let s' := snd (Heatmap.openFileNameDialog w f st) in
     Heatmap.livePlot s' = false /\ Heatmap.timer s' <> Some true) /\
  (forall w st,
     heatmap_live_consistent st ->
     Heatmap.openFileNameDialog w "" st =
       (Ret tt,
        if Heatmap.livePlot st
        then Heatmap.set_timer (Some false) (Heatmap.set_livePlot false st)
        else st)) /\
  (forall w f st,
     heatmap_live_consistent st -> f <> "" ->
     let s' := snd (Heatmap.openFileNameDialog w f st) in
     Heatmap.filename s' = f /\
     (fst (Heatmap.openFileNameDialog w f st) = Ret tt ->
      Heatmap.file_path s' = f) /\
     (fst (Heatmap.openFileNameDialog w f st) <> Ret tt ->
      Heatmap.file_path s' = Heatmap.file_path st)) /\
  (forall w f st,
     dual_live_consistent st ->
     let s' := snd (Dual.openFileNameDialog w f st) in
     Dual.livePlot s' = false /\ Dual.timer s' <> Some true) /\
  (forall w st,
     dual_live_consistent st ->
     Dual.openFileNameDialog w "" st =
       (Ret tt,
        if Dual.livePlot st
        then Dual.set_timer (Some false) (Dual.set_livePlot false st)
        else st)) /\
  (forall w f st,
     dual_live_consistent st -> f <> "" ->
     let s' := snd (Dual.openFileNameDialog w f st) in
     Dual.filename s' = f /\
     (fst (Dual.openFileNameDialog w f st) = Ret tt -> Dual.file_path s' = f) /\
     (fst (Dual.openFileNameDialog w f st) <> Ret tt ->
      Dual.file_path s' = Dual.file_path st)).
Proof.
  split.
  { intros w f st Hc.
    destruct (heatmap_openFileNameDialog_stops_live w f Hc) as (H1 & H2 & _).
    split; assumption. }
  split; [ intros; apply heatmap_openFileNameDialog_cancelled; assumption | ].
  split; [ intros; apply heatmap_openFileNameDialog_file; assumption | ].
  split.
  { intros w f st Hc.
    destruct (dual_openFileNameDialog_stops_live w f Hc) as (H1 & H2 & _).
    split; assumption. }
  split; [ intros; apply dual_openFileNameDialog_cancelled; assumption | ].
  intros; apply dual_openFileNameDialog_file; assumption.
Qed.

Lemma heatmap_init_consistent : heatmap_live_consistent Heatmap.init.
Proof. split; simpl; intros; discriminate. Qed.

Lemma X12_cancelled_witness :
  Heatmap.openFileNameDialog sweep_001_world "" Heatmap.init
    = (Ret tt, Heatmap.init).
Proof.
  exact (proj1 (proj2 X12_file_dialog_stops_live_plotting) sweep_001_world
           Heatmap.init heatmap_init_consistent).
Defined.


(** ** The x and y boxes of the heatmap window *)

(** X13. In the heatmap window the handlers of the x box and of the y box
    refresh without a value index.  Whatever value axis was shown before,
    when the chosen x column is not empty they return to the line view:
    the chosen index is stored, the value index goes back to the position
    of "<none>", the graph widget becomes current, the line of x against
    y is set, the axes are labelled and the view is fitted; no call of
    the image branch is made. *)
Theorem X13_choosing_an_axis_returns_to_the_line_view :
  (forall w st i d sx sy vn nx ny,
     parse_data w (Heatmap.filename st) = Ret d ->
     Heatmap.var_names st = Some vn ->
     py_index d i = Some sx -> data sx <> [] ->
     py_index d (Heatmap.yindex st) = Some sy ->
     py_index vn i = Some nx -> py_index vn (Heatmap.yindex st) = Some ny ->
     let s' := snd (Heatmap.xboxindex w i st) in
     fst (Heatmap.xboxindex w i st) = Ret tt /\
     Heatmap.xindex s' = i /\
     Heatmap.zindex s' = len vn - 1 /\
     Heatmap.graphs s' = graphWidget /\
     Heatmap.calls s' =
       Heatmap.calls st ++
         [setCurrentWidget graphWidget;
          setData data_line (data sx) (data sy);
          setLabel graphWidget "bottom" nx; setLabel graphWidget "left" ny;
          setLabel imageWidget "bottom" nx; setLabel imageWidget "left" ny;
          autoRange]) /\
  (forall w st i d sx sy vn nx ny,
     parse_data w (Heatmap.filename st) = Ret d ->
     Heatmap.var_names st = Some vn ->
     py_index d (Heatmap.xindex st) = Some sx -> data sx <> [] ->
     py_index d i = Some sy ->
     py_index vn (Heatmap.xindex st) = Some nx -> py_index vn i = Some ny ->
     let s' := snd (Heatmap.yboxindex w i st) in
     fst (Heatmap.yboxindex w i st) = Ret tt /\
     Heatmap.yindex s' = i /\
     Heatmap.zindex s' = len vn - 1 /\
     Heatmap.graphs s' = graphWidget /\
     Heatmap.calls s' =
       Heatmap.calls st ++
         [setCurrentWidget graphWidget;
          setData data_line (data sx) (data sy);
          setLabel graphWidget "bottom" nx; setLabel graphWidget "left" ny;
          setLabel imageWidget "bottom" nx; setLabel imageWidget "left" ny;
          autoRange]).
Proof.
  split; intros w st i d sx sy vn nx ny Hp Hv Hx Hd Hy Hnx Hny.
  - destruct (@heatmap_updateData_line w (Heatmap.set_xindex i st) i
                (Heatmap.yindex st) (-1) false d sx sy vn nx ny
                Hp Hx Hd Hy Hv (or_introl eq_refl) Hnx Hny)
      as (H1 & _ & _ & H4 & H5 & _ & H7).
    apply (wp_run_eq (fun o s' => o = Ret tt /\ Heatmap.xindex s' = i /\
             Heatmap.zindex s' = _ /\ Heatmap.graphs s' = graphWidget /\
             Heatmap.calls s' = _)).
    unfold Heatmap.xboxindex, Heatmap.emit. wp_run. simpl.
    apply wp_of_run. rewrite H1. wp_run. simpl.
    pose proof (heatmap_refresh_keeps_selectors w i (Heatmap.yindex st) (-1)
                  (Heatmap.set_xindex i st)) as (_ & _ & _ & Hxi & _).
    rewrite H7. simpl. rewrite <- app_assoc. simpl.
    repeat split; assumption.
  - destruct (@heatmap_updateData_line w (Heatmap.set_yindex i st)
                (Heatmap.xindex st) i (-1) false d sx sy vn nx ny
                Hp Hx Hd Hy Hv (or_introl eq_refl) Hnx Hny)
      as (H1 & _ & _ & H4 & H5 & _ & H7).
    apply (wp_run_eq (fun o s' => o = Ret tt /\ Heatmap.yindex s' = i /\
             Heatmap.zindex s' = _ /\ Heatmap.graphs s' = graphWidget /\
             Heatmap.calls s' = _)).
    unfold Heatmap.yboxindex, Heatmap.emit. wp_run. simpl.
    apply wp_of_run. rewrite H1. wp_run. simpl.
    pose proof (heatmap_refresh_keeps_selectors w (Heatmap.xindex st) i (-1)
                  (Heatmap.set_yindex i st)) as (_ & _ & _ & _ & Hyi & _).
    rewrite H7. simpl. rewrite <- app_assoc. simpl.
    repeat split; assumption.
Qed.

Lemma X13_image_shown_witness :
  Heatmap.zindex
    (snd (Heatmap.xboxindex ten_records_world 1
            (snd (Heatmap.zboxindex ten_records_world 2 ten_records_loaded))))
    = 3.
Proof.
  pose proof (proj1 X13_choosing_an_axis_returns_to_the_line_view
                ten_records_world
                (snd (Heatmap.zboxindex ten_records_world 2 ten_records_loaded))
                1 _
                (mk_series "y" (samples [0; 1; 2; 0; 1; 2; 0; 1; 2; 0]))
                (mk_series "y" (samples [0; 1; 2; 0; 1; 2; 0; 1; 2; 0]))
                ["x"; "y"; "v"; "<none>"] "y" "y"
                eq_refl eq_refl eq_refl) as H.
  refine (proj1 (proj2 (proj2 (H _ eq_refl eq_refl eq_refl)))).
  discriminate.
Defined.


(** ** The write methods of the spectrum analyzer *)



